(** * Layer wrappers of keras/layers/wrappers.py

    A shallow embedding of the [Wrapper], [TimeDistributed] and
    [Bidirectional] classes, followed by the properties of their shape
    inference, mask handling, construction and serialisation.

    Python objects that are shared and mutated in place (the inner layers)
    live in a store indexed by references; methods that touch them are
    computations in a state-and-exception monad.  Methods that only compute
    on their arguments are plain functions returning a [result]. *)

From stdpp Require Import gmap strings list fin_maps.
From Stdlib Require Import ZArith Lia.

Local Open Scope Z_scope.

(** ** Tensors *)

(** Modelled from the spec: the tensors of the numeric backend, which is
    not part of the sources.  A tensor is a scalar or a sequence of tensors
    along its first axis; entries are integers (indicator masks and
    integer-valued data). *)
#[warnings="-register-all"]
Inductive tensor :=
| Scalar (x : Z)
| Tensor (xs : list tensor).

(** ** Python values, exceptions *)

(** Values stored in configuration dictionaries and in attributes whose
    type the source does not fix ([merge_mode], [return_sequences], ...);
    [PyWeights] is a list of weight arrays. *)
#[warnings="-register-all"]
Inductive pyval :=
| PyNone
| PyBool (b : bool)
| PyInt (n : Z)
| PyStr (s : string)
| PyDict (d : gmap string pyval)
| PyWeights (ws : list tensor).

(** Truth value of an object, as tested by [if x:] and [not x]. *)
Definition truthy (v : pyval) : bool :=
  match v with
  | PyNone => false
  | PyBool b => b
  | PyInt n => negb (n =? 0)
  | PyStr s => match s with EmptyString => false | _ => true end
  | PyDict d => negb (Nat.eqb (size d) 0)
  | PyWeights ws => negb (Nat.eqb (length ws) 0)
  end.

Definition py_not (v : pyval) : pyval := PyBool (negb (truthy v)).

(** [v == 'literal'] for a string literal. *)
Definition eq_str (v : pyval) (lit : string) : bool :=
  match v with
  | PyStr s => String.eqb s lit
  | _ => false
  end.

Definition is_None (v : pyval) : bool :=
  match v with PyNone => true | _ => false end.

(** The exception classes raised by the source or by the Python operations
    it performs.  [ShapeMismatch] is the error the inner layer raises on a
    weight list of the wrong length. *)
Inductive exn :=
| ValueError (msg : string)
| TypeError (msg : string)
| IndexError (msg : string)
| KeyError (key : string)
| AttributeError (attr : string)
| AssertionError
| ShapeMismatch (msg : string)
| Exception (msg : string).

Inductive result (A : Type) :=
| Ok (a : A)
| Raise (e : exn).
Arguments Ok {A} a.
Arguments Raise {A} e.

#[global] Instance result_ret : MRet result := λ A a, Ok a.
#[global] Instance result_bind : MBind result := λ A B f m,
  match m with
  | Ok a => f a
  | Raise e => Raise e
  end.

(** The double quote character, for the messages that contain it. *)
Definition dq : string := String (Ascii.ascii_of_nat 34) EmptyString.

(** [sub in s] on strings. *)
Fixpoint contains (sub s : string) : bool :=
  if String.prefix sub s then true
  else match s with
       | EmptyString => false
       | String _ s' => contains sub s'
       end.

(** ** Sequences: indexing and slicing *)

(** [xs[i]] for a non-negative literal index. *)
Definition getitem {A} (xs : list A) (i : nat) : result A :=
  match xs !! i with
  | Some x => Ok x
  | None => Raise (IndexError "index out of range")
  end.

(** [d[k]] on a dictionary. *)
Definition dict_getitem (d : gmap string pyval) (k : string) : result pyval :=
  match d !! k with
  | Some v => Ok v
  | None => Raise (KeyError k)
  end.

(** ** Shapes *)

(** A shape is a tuple of optional sizes; [None] is an unknown size. *)
Abbreviation Shape := (list (option Z)).

(** Shape arguments are either one tuple or a Python list of tuples; the
    source tells them apart with [type(input_shape) == list]. *)
Inductive ShapeArg :=
| Tuple (s : Shape)
| ShapeList (ss : list Shape).


(** ** The backend

    The primitives of the numeric backend [K] that this file calls.  They
    build tensors from tensors; what they compute is the backend's
    business, so the wrappers are written against this interface. *)
Class Backend (T : Type) := {
  (** [K.concatenate(tensors)], with its default axis, the last one *)
  K_concatenate : list T → T;
  (** [K.prod(x, axis)] *)
  K_prod : T → Z → T;
  (** [K.reverse(x, axis)] *)
  K_reverse : T → Z → T;
  (** [x + y], [x * y] and [x / n] on tensors *)
  tensor_add : T → T → T;
  tensor_mul : T → T → T;
  tensor_div : T → Z → T
}.

(** [K.concatenate] applied to a Python list whose entries may be [None]:
    [None] is not a tensor, and the backend rejects it. *)
Definition K_concatenate_objects `{Backend T} (xs : list (option T)) : result T :=
  match mapM id xs with
  | Some ts => Ok (K_concatenate ts)
  | None => Raise (TypeError "None is not a tensor")
  end.

(** [bool(x)] on a tensor object, as [any] and [if] ask for it.  What a
    tensor answers is the backend's business: a symbolic variable is true
    like any object, the result of a comparison and the tensors of some
    backends refuse to be used as a truth value and raise. *)
Class TensorTruth (T : Type) := {
  truth_value : T → result bool
}.

(** [any(xs)] on a Python list of tensors and [None]: the entries are asked
    for their truth value from the left, up to the first that is true. *)
Fixpoint py_any `{TensorTruth T} (xs : list (option T)) : result bool :=
  match xs with
  | [] => Ok false
  | None :: xs' => py_any xs'
  | Some x :: xs' =>
      b ← truth_value x;
      if b : bool then Ok true else py_any xs'
  end.

(** *** Integer tensors

    Modelled from the spec: a reference implementation of the backend
    primitives on [tensor].  Concatenation joins the tensors along their
    last axis (spec 4.3), product reduces along the given axis, reversal
    flips the given axis, arithmetic is elementwise. *)
Module ZTensor.

Definition is_scalar (t : tensor) : bool :=
  match t with Scalar _ => true | Tensor _ => false end.

(** Join two tensors along the last axis. *)
Fixpoint concat_last (a b : tensor) : tensor :=
  match a with
  | Scalar _ => a
  | Tensor xs =>
      match b with
      | Scalar _ => a
      | Tensor ys =>
          if forallb is_scalar xs then Tensor (xs ++ ys)
          else Tensor ((fix rows xs ys :=
                          match xs, ys with
                          | x :: xs', y :: ys' => concat_last x y :: rows xs' ys'
                          | _, _ => []
                          end) xs ys)
      end
  end.

Definition concatenate (ts : list tensor) : tensor :=
  match ts with
  | [] => Tensor []
  | t :: ts' => foldl concat_last t ts'
  end.

(** Combine two tensors of the same shape entry by entry. *)
Fixpoint elementwise (f : Z → Z → Z) (a b : tensor) : tensor :=
  match a with
  | Scalar x =>
      match b with
      | Scalar y => Scalar (f x y)
      | Tensor _ => a
      end
  | Tensor xs =>
      match b with
      | Scalar _ => a
      | Tensor ys =>
          Tensor ((fix rows xs ys :=
                     match xs, ys with
                     | x :: xs', y :: ys' => elementwise f x y :: rows xs' ys'
                     | _, _ => []
                     end) xs ys)
      end
  end.

Fixpoint pointwise (f : Z → Z) (a : tensor) : tensor :=
  match a with
  | Scalar x => Scalar (f x)
  | Tensor xs => Tensor (map (pointwise f) xs)
  end.

(** Product of the slices along the first axis. *)
Definition prod_first (t : tensor) : tensor :=
  match t with
  | Scalar _ => t
  | Tensor [] => Scalar 1
  | Tensor (x :: xs) => foldl (elementwise Z.mul) x xs
  end.

Fixpoint prod_axis (axis : nat) (t : tensor) : tensor :=
  match t with
  | Scalar _ => t
  | Tensor xs =>
      match axis with
      | O => prod_first t
      | S k => Tensor (map (prod_axis k) xs)
      end
  end.

Fixpoint reverse_axis (axis : nat) (t : tensor) : tensor :=
  match t with
  | Scalar _ => t
  | Tensor xs =>
      match axis with
      | O => Tensor (rev xs)
      | S k => Tensor (map (reverse_axis k) xs)
      end
  end.

#[global] Instance backend : Backend tensor := {
  K_concatenate := concatenate;
  K_prod t axis := prod_axis (Z.to_nat axis) t;
  K_reverse t axis := reverse_axis (Z.to_nat axis) t;
  tensor_add := elementwise Z.add;
  tensor_mul := elementwise Z.mul;
  tensor_div t n := pointwise (λ x, x / n) t
}.

(** The tensors of the reference backend are symbolic variables: objects,
    and so true. *)
#[global] Instance truth : TensorTruth tensor := {
  truth_value _ := Ok true
}.

(** The shape of a tensor, read along the first slice of every axis. *)
Fixpoint shape (t : tensor) : list nat :=
  match t with
  | Scalar _ => []
  | Tensor xs =>
      length xs :: match xs with
                   | [] => []
                   | x :: _ => shape x
                   end
  end.

End ZTensor.

(** ** Inner layers

    Modelled from the spec: the base [Layer] class of the engine, which is
    not part of the sources.  A layer object carries the attributes this
    file reads and writes.  Its serialised form [get_config] is the mapping
    of its constructor arguments together with its current [name];
    [from_config] constructs an unbuilt instance from such a mapping (spec
    4.1 and 6: [get_config] is inverted by [from_config]).  A recurrent
    layer keeps [go_backwards], [return_sequences] and [stateful] among
    its constructor arguments and exposes them as attributes. *)
Module Layer.

Record t := mk {
  class_name : string;
  name : string;
  config : gmap string pyval;
  uses_learning_phase : bool;
  initial_weights : option (list tensor);
  trainable_weights : list tensor;
  non_trainable_weights : list tensor;
  updates : list tensor;
  losses : list tensor;
  constraints : gmap string pyval;
  built : bool
}.

Definition set_name (n : string) (l : t) : t :=
  mk (class_name l) n (config l) (uses_learning_phase l) (initial_weights l)
     (trainable_weights l) (non_trainable_weights l) (updates l) (losses l)
     (constraints l) (built l).

Definition set_initial_weights (ws : list tensor) (l : t) : t :=
  mk (class_name l) (name l) (config l) (uses_learning_phase l) (Some ws)
     (trainable_weights l) (non_trainable_weights l) (updates l) (losses l)
     (constraints l) (built l).

Definition set_built (b : bool) (l : t) : t :=
  mk (class_name l) (name l) (config l) (uses_learning_phase l) (initial_weights l)
     (trainable_weights l) (non_trainable_weights l) (updates l) (losses l)
     (constraints l) b.

Definition get_config (l : t) : gmap string pyval :=
  <["name" := PyStr (name l)]> (config l).

(** [cls.from_config(config)] calls the constructor with the entries of
    the mapping as keyword arguments: the name is taken
    from the mapping when it is there, and derived from the class name
    otherwise. *)
Definition from_config (cls : string) (c : gmap string pyval) : t :=
  mk cls
     (match c !! "name" with Some (PyStr n) => n | _ => cls end)
     (delete "name" c) false None [] [] [] [] ∅ false.

(** An attribute that mirrors a constructor argument. *)
Definition getattr (l : t) (attr : string) : result pyval :=
  match config l !! attr with
  | Some v => Ok v
  | None => Raise (AttributeError attr)
  end.

Definition get_weights (l : t) : list tensor :=
  trainable_weights l ++ non_trainable_weights l.

(** Spec 4.1: a weight list of the wrong length fails with the
    [ShapeMismatch] error of the inner layer. *)
Definition set_weights (ws : list tensor) (l : t) : result t :=
  let n := length (trainable_weights l) in
  if decide (length ws = (n + length (non_trainable_weights l))%nat)
  then Ok (mk (class_name l) (name l) (config l) (uses_learning_phase l)
              (initial_weights l) (take n ws) (drop n ws) (updates l) (losses l)
              (constraints l) (built l))
  else Raise (ShapeMismatch "weight list of the wrong length").

(** The methods that every layer class implements in its own way. *)
Class Methods := {
  get_output_shape_for : t → ShapeArg → Shape;
  build : ShapeArg → t → t
}.

Class Call (T : Type) := {
  call : t → T → option T → T
}.

End Layer.

(** [layer_from_config] of keras.utils.layer_utils: resolves the class by
    name and hands its [config] entry to [from_config]. *)
Definition layer_from_config (d : pyval) : result Layer.t :=
  match d with
  | PyDict m =>
      cls ← dict_getitem m "class_name";
      cfg ← dict_getitem m "config";
      match cls, cfg with
      | PyStr c, PyDict cfg => Ok (Layer.from_config c cfg)
      | _, _ => Raise (TypeError "malformed layer configuration")
      end
  | _ => Raise (TypeError "malformed layer configuration")
  end.

(** ** The store of layer objects *)

Abbreviation loc := positive.
Abbreviation heap := (gmap positive Layer.t).

(** Computations that read and update the store and may raise. *)
Definition M (A : Type) : Type := heap → result (A * heap).

#[global] Instance M_ret : MRet M := λ A a h, Ok (a, h).
#[global] Instance M_bind : MBind M := λ A B f m h,
  match m h with
  | Ok (a, h') => f a h'
  | Raise e => Raise e
  end.

Definition raise {A} (e : exn) : M A := λ _, Raise e.

Definition lift {A} (r : result A) : M A := λ h,
  match r with
  | Ok a => Ok (a, h)
  | Raise e => Raise e
  end.

(** Read the object behind a reference. *)
Definition deref (r : loc) : M Layer.t := λ h,
  match h !! r with
  | Some l => Ok (l, h)
  | None => Raise (AttributeError "dangling reference")
  end.

(** Update the object behind a reference in place. *)
Definition update (r : loc) (f : Layer.t → Layer.t) : M unit := λ h,
  match h !! r with
  | Some l => Ok (tt, <[r := f l]> h)
  | None => Raise (AttributeError "dangling reference")
  end.

(** Like [update], for a method that may raise. *)
Definition update_with (r : loc) (f : Layer.t → result Layer.t) : M unit := λ h,
  match h !! r with
  | Some l =>
      match f l with
      | Ok l' => Ok (tt, <[r := l']> h)
      | Raise e => Raise e
      end
  | None => Raise (AttributeError "dangling reference")
  end.

(** A newly constructed object gets a reference that is not in use. *)
Definition alloc (l : Layer.t) : M loc := λ h,
  let r := fresh (dom h) in Ok (r, <[r := l]> h).

(** ** class Wrapper(Layer) *)
Module Wrapper.

(** The attributes of a wrapper: those set by [__init__] (the keyword
    arguments are the ones the base constructor records and the base
    [get_config] returns) and the collections copied by [build]. *)
Record t := mk {
  layer : loc;
  uses_learning_phase : bool;
  kwargs : gmap string pyval;
  trainable_weights : list tensor;
  non_trainable_weights : list tensor;
  updates : list tensor;
  losses : list tensor;
  constraints : gmap string pyval
}.

Definition __init__ (layer : loc) (kwargs : gmap string pyval) : M t :=
  l ← deref layer;
  mret (mk layer (Layer.uses_learning_phase l) kwargs [] [] [] [] ∅).

Definition build (self : t) : M t :=
  l ← deref (layer self);
  mret (mk (layer self) (uses_learning_phase self) (kwargs self)
           (Layer.trainable_weights l) (Layer.non_trainable_weights l)
           (Layer.updates l) (Layer.losses l) (Layer.constraints l)).

Definition get_weights (self : t) : M (list tensor) :=
  l ← deref (layer self);
  mret (Layer.get_weights l).

Definition set_weights (self : t) (weights : list tensor) : M unit :=
  update_with (layer self) (Layer.set_weights weights).

(** The entries of [config] come after those of [base_config] in the
    list the dictionary is built from, so they win: a left-biased union. *)
Definition get_config (self : t) : M (gmap string pyval) :=
  l ← deref (layer self);
  let config : gmap string pyval :=
    {[ "layer" := PyDict (<["class_name" := PyStr (Layer.class_name l)]>
                           {[ "config" := PyDict (Layer.get_config l) ]}) ]} in
  let base_config := kwargs self in
  mret (config ∪ base_config).

(** The first two lines of [from_config]: the [layer] entry is popped and
    the inner layer is constructed from it.  The class method then calls
    the constructor of the class it is invoked on, see the subclasses. *)
Definition from_config_layer (config : gmap string pyval)
  : M (loc * gmap string pyval) :=
  d ← lift (dict_getitem config "layer");
  l ← lift (layer_from_config d);
  layer ← alloc l;
  mret (layer, delete "layer" config).

End Wrapper.

(** [max(xs)] on a list of known sizes. *)
Definition py_max (xs : list (option Z)) : result (option Z) :=
  match xs with
  | [] => Raise (ValueError "max() arg is an empty sequence")
  | x :: xs' => Ok (foldl (λ a b, match a, b with
                                  | Some m, Some n => Some (Z.max m n)
                                  | _, _ => None
                                  end) x xs')
  end.

(** [(shape[0],) + shape[2:]]: the shape without its time axis. *)
Definition child_shape (shape : Shape) : result Shape :=
  batch ← getitem shape 0;
  mret (batch :: drop 2 shape).

(** A mask argument: one mask (or [None]), or a Python list of them. *)
Inductive MaskArg (T : Type) :=
| Mask (m : option T)
| MaskList (ms : list (option T)).
Arguments Mask {T} m.
Arguments MaskList {T} ms.

(** ** class TimeDistributed(Wrapper) *)
Module TimeDistributed.

Record t := mk {
  base : Wrapper.t;
  supports_masking : bool;
  input_spec : list Shape
}.

Definition layer (self : t) : loc := Wrapper.layer (base self).

Definition __init__ (layer : loc) (kwargs : gmap string pyval) : M t :=
  w ← Wrapper.__init__ layer kwargs;
  mret (mk w true []).

(** [Wrapper.from_config] invoked on this class. *)
Definition from_config (config : gmap string pyval) : M t :=
  '(layer, config) ← Wrapper.from_config_layer config;
  __init__ layer config.

Definition get_config (self : t) : M (gmap string pyval) :=
  Wrapper.get_config (base self).

(** [if not self.layer.built: ...; super().build()] *)
Definition build_layer `{Layer.Methods} (self : t) (input_spec : list Shape)
    (child_input_shape : ShapeArg) : M t :=
  l ← deref (layer self);
  _ ← (if Layer.built l then mret tt
       else update (layer self)
                   (λ l, Layer.set_built true (Layer.build child_input_shape l)));
  w ← Wrapper.build (base self);
  mret (mk w (supports_masking self) input_spec).

Definition build `{Layer.Methods} (self : t) (input_shape : ShapeArg) : M t :=
  let input_shape :=
    match input_shape with
    | ShapeList ss => ss
    | Tuple s => [s]
    end in
  _ ← lift (mapM (λ shape : Shape,
                    if decide (3 ≤ length shape)%nat then Ok tt
                    else Raise AssertionError) input_shape);
  child_input_shape ← lift (mapM child_shape input_shape);
  let child_input_shape :=
    match child_input_shape with
    | [s] => Tuple s
    | _ => ShapeList child_input_shape
    end in
  build_layer self input_shape child_input_shape.

Definition timesteps_message : string :=
  "When using TensorFlow, you should define explicitly the number of timesteps of your sequences."
  ++ String (Ascii.ascii_of_nat 10) EmptyString
  ++ "If your first layer is an Embedding, make sure to pass it an "
  ++ dq ++ "input_length" ++ dq
  ++ " argument. Otherwise, make sure the first layer has an "
  ++ dq ++ "input_shape" ++ dq ++ " or " ++ dq ++ "batch_input_shape" ++ dq
  ++ " argument, including the time axis.".

(** [not input_shape[1]]: an unknown size and the size zero are false. *)
Definition size_is_false (d : option Z) : bool :=
  match d with
  | None => true
  | Some n => n =? 0
  end.

(** Modelled from the spec: [get_input] and [get_input_mask] are defined
    by no class of this file, and the base layer of the engine does not
    offer them either (section 6 lists what it offers): looking them up on
    a wrapper raises [AttributeError]. *)
Definition get_input (self : t) (train : bool) : M tensor :=
  raise (AttributeError "get_input").

Definition get_input_mask (self : t) (train : bool) : M (option tensor) :=
  raise (AttributeError "get_input_mask").

(** [get_output]: [K_BACKEND] is the backend's [_BACKEND] name.  The
    method returns nothing; the updated wrapper is its result here. *)
Definition get_output `{Layer.Methods} (K_BACKEND : string) (self : t)
    (train : bool) : M t :=
  X ← get_input self train;
  mask ← get_input_mask self train;
  input_shape ← lift (getitem (input_spec self) 0);
  let input_spec := [input_shape] in
  _ ← (if String.eqb K_BACKEND "tensorflow" then
         timesteps ← lift (getitem input_shape 1);
         if size_is_false timesteps then raise (Exception timesteps_message)
         else mret tt
       else mret tt);
  child_input_shape ← lift (child_shape input_shape);
  build_layer self input_spec (Tuple child_input_shape).

Definition get_output_shape_for `{Layer.Methods} (self : t)
    (input_shape : ShapeArg) : M Shape :=
  '(child_input_shape, timesteps) ←
    lift (match input_shape with
          | ShapeList ss =>
              all_timesteps ← mapM (λ shape : Shape, getitem shape 1) ss;
              timesteps ← (if bool_decide (None ∈ all_timesteps) then Ok None
                            else py_max all_timesteps);
              child_input_shape ← mapM child_shape ss;
              mret (ShapeList child_input_shape, timesteps)
          | Tuple s =>
              child_input_shape ← child_shape s;
              timesteps ← getitem s 1;
              mret (Tuple child_input_shape, timesteps)
          end);
  l ← deref (layer self);
  let child_output_shape := Layer.get_output_shape_for l child_input_shape in
  batch ← lift (getitem child_output_shape 0);
  mret (batch :: timesteps :: drop 1 child_output_shape).

(** [compute_mask]: [any] asks the masks of the list for their truth
    value. *)
Definition compute_mask `{Backend T} `{TensorTruth T} (self : t) (input : T)
    (input_mask : MaskArg T) : result (option T) :=
  match input_mask with
  | Mask m => Ok m
  | MaskList ms =>
      some_mask ← py_any ms;
      if negb some_mask then Ok None
      else
        let not_None_masks := omap id ms in
        if decide (length not_None_masks = 1%nat) then
          m ← getitem not_None_masks 0;
          mret (Some m)
        else
          input_mask ← K_concatenate_objects ms;
          mret (Some (K_prod input_mask 0))
  end.

End TimeDistributed.

(** The result of a layer's [call]: a tensor, a Python list of tensors, or
    nothing. *)
Inductive CallOut (T : Type) :=
| OutTensor (y : T)
| OutList (ys : list T)
| OutNone.
Arguments OutTensor {T} y.
Arguments OutList {T} ys.
Arguments OutNone {T}.

(** ** class Bidirectional(Wrapper) *)
Module Bidirectional.

Record t := mk {
  forward_layer : loc;
  backward_layer : loc;
  merge_mode : pyval;
  stateful : pyval;
  return_sequences : pyval;
  supports_masking : bool;
  base : Wrapper.t
}.

Definition invalid_merge_mode_message : string :=
  "Invalid merge mode. Merge mode should be one of {"
  ++ dq ++ "sum" ++ dq ++ ", " ++ dq ++ "mul" ++ dq ++ ", "
  ++ dq ++ "ave" ++ dq ++ ", " ++ dq ++ "concat" ++ dq ++ ", None}".

(** [merge_mode in ['sum', 'mul', 'ave', 'concat', None]] *)
Definition merge_mode_allowed (merge_mode : pyval) : bool :=
  existsb (eq_str merge_mode) ["sum"; "mul"; "ave"; "concat"]%string
  || is_None merge_mode.

(** [if weights: ...] in [__init__]. *)
Definition assign_initial_weights (forward_layer backward_layer : loc)
    (weights : option (list tensor)) : M unit :=
  match weights with
  | Some ((_ :: _) as weights) =>
      let nw := length weights in
      _ ← update forward_layer (Layer.set_initial_weights (take (nw / 2) weights));
      update backward_layer (Layer.set_initial_weights (drop (nw / 2) weights))
  | _ => mret tt
  end.

Definition __init__ (layer : loc) (merge_mode : pyval)
    (weights : option (list tensor)) (kwargs : gmap string pyval) : M t :=
  if negb (merge_mode_allowed merge_mode) then
    raise (ValueError invalid_merge_mode_message)
  else
    let forward_layer := layer in
    l ← deref layer;
    let config := Layer.get_config l in
    go_backwards ← lift (dict_getitem config "go_backwards");
    let config := <["go_backwards" := py_not go_backwards]> config in
    backward_layer ← alloc (Layer.from_config (Layer.class_name l) config);
    _ ← update forward_layer (λ l, Layer.set_name ("forward_" ++ Layer.name l) l);
    _ ← update backward_layer (λ l, Layer.set_name ("backward_" ++ Layer.name l) l);
    _ ← assign_initial_weights forward_layer backward_layer weights;
    l ← deref layer;
    stateful ← lift (Layer.getattr l "stateful");
    return_sequences ← lift (Layer.getattr l "return_sequences");
    w ← Wrapper.__init__ layer kwargs;
    mret (mk forward_layer backward_layer merge_mode stateful return_sequences true w).

Definition get_weights (self : t) : M (list tensor) :=
  f ← deref (forward_layer self);
  b ← deref (backward_layer self);
  mret (Layer.get_weights f ++ Layer.get_weights b).

Definition set_weights (self : t) (weights : list tensor) : M unit :=
  let nw := length weights in
  _ ← update_with (forward_layer self) (Layer.set_weights (take (nw / 2) weights));
  update_with (backward_layer self) (Layer.set_weights (drop (nw / 2) weights)).

(** [shape[-1] *= 2] on the list copy of a shape. *)
Definition double_last (shape : Shape) : result Shape :=
  match length shape with
  | O => Raise (IndexError "list index out of range")
  | S i =>
      last ← getitem shape i;
      match last with
      | Some n => Ok (<[i := Some (n * 2)]> shape)
      | None => Raise (TypeError "unsupported operand type(s) for *=")
      end
  end.

(** A shape, a Python list of shapes, or nothing when no branch applies. *)
Definition get_output_shape_for `{Layer.Methods} (self : t)
    (input_shape : ShapeArg) : M (option ShapeArg) :=
  if existsb (eq_str (merge_mode self)) ["sum"; "ave"; "mul"]%string then
    f ← deref (forward_layer self);
    mret (Some (Tuple (Layer.get_output_shape_for f input_shape)))
  else if eq_str (merge_mode self) "concat" then
    f ← deref (forward_layer self);
    shape ← lift (double_last (Layer.get_output_shape_for f input_shape));
    mret (Some (Tuple shape))
  else if is_None (merge_mode self) then
    f ← deref (forward_layer self);
    mret (Some (ShapeList (replicate 2 (Layer.get_output_shape_for f input_shape))))
  else mret None.

Definition call `{Backend T} `{Layer.Call T} (self : t) (X : T)
    (mask : option T) : M (CallOut T) :=
  f ← deref (forward_layer self);
  let Y := Layer.call f X mask in
  b ← deref (backward_layer self);
  let Y_rev := Layer.call b X mask in
  let Y_rev := if truthy (return_sequences self) then K_reverse Y_rev 1 else Y_rev in
  if eq_str (merge_mode self) "concat" then
    mret (OutTensor (K_concatenate [Y; Y_rev]))
  else if eq_str (merge_mode self) "sum" then
    mret (OutTensor (tensor_add Y Y_rev))
  else if eq_str (merge_mode self) "ave" then
    mret (OutTensor (tensor_div (tensor_add Y Y_rev) 2))
  else if eq_str (merge_mode self) "mul" then
    mret (OutTensor (tensor_mul Y Y_rev))
  else if is_None (merge_mode self) then
    mret (OutList [Y; Y_rev])
  else mret OutNone.

Definition build `{Layer.Methods} (self : t) (input_shape : ShapeArg) : M unit :=
  _ ← update (forward_layer self) (Layer.build input_shape);
  update (backward_layer self) (Layer.build input_shape).

Definition compute_mask {T} (self : t) (input : T) (mask : option T)
  : MaskArg T :=
  if truthy (return_sequences self) then
    if negb (truthy (merge_mode self)) then MaskList [mask; mask]
    else Mask mask
  else Mask None.

Definition get_config (self : t) : M (gmap string pyval) :=
  let config : gmap string pyval := {[ "merge_mode" := merge_mode self ]} in
  base_config ← Wrapper.get_config (base self);
  mret (config ∪ base_config).

(** Binding of the entries of a configuration to the parameters
    [merge_mode='concat'] and [weights=None] of the constructor; the
    remaining entries are its keyword arguments. *)
Definition bind_weights (v : option pyval) : result (option (list tensor)) :=
  match v with
  | None => Ok None
  | Some (PyWeights ws) => Ok (Some ws)
  | Some v => if truthy v then Raise (TypeError "weights is not a list of arrays")
              else Ok None
  end.

(** [Wrapper.from_config] invoked on this class. *)
Definition from_config (config : gmap string pyval) : M t :=
  '(layer, config) ← Wrapper.from_config_layer config;
  weights ← lift (bind_weights (config !! "weights"));
  __init__ layer (default (PyStr "concat") (config !! "merge_mode")) weights
           (delete "merge_mode" (delete "weights" config)).

(** The collections of the wrapper are properties, computed from the two
layers on every access.  The layer objects of this model always carry
the five collections, so the [hasattr] tests hold. *)
Definition trainable_weights (self : t) : M (list tensor) :=
  f ← deref (forward_layer self);
  b ← deref (backward_layer self);
  mret (Layer.trainable_weights f ++ Layer.trainable_weights b).

Definition non_trainable_weights (self : t) : M (list tensor) :=
  f ← deref (forward_layer self);
  b ← deref (backward_layer self);
  mret (Layer.non_trainable_weights f ++ Layer.non_trainable_weights b).

Definition updates (self : t) : M (list tensor) :=
  f ← deref (forward_layer self);
  b ← deref (backward_layer self);
  mret (Layer.updates f ++ Layer.updates b).

Definition losses (self : t) : M (list tensor) :=
  f ← deref (forward_layer self);
  b ← deref (backward_layer self);
  mret (Layer.losses f ++ Layer.losses b).

(** [_constraints.update(d)] lets the entries of [d] win. *)
Definition constraints (self : t) : M (gmap string pyval) :=
  f ← deref (forward_layer self);
  let _constraints : gmap string pyval := Layer.constraints f ∪ ∅ in
  b ← deref (backward_layer self);
  mret (Layer.constraints b ∪ _constraints).

End Bidirectional.

(** ** Example layers

    Modelled from the spec: the inner layers of the examples of section 8,
    whose classes are not part of the sources.  A dense layer maps the last
    axis of a matrix to its number of units; a recurrent layer returns the
    full sequence or only the final step, with its number of units as last
    axis. *)
Module Examples.

Definition output_dim (l : Layer.t) : option Z :=
  match Layer.config l !! "output_dim" with
  | Some (PyInt n) => Some n
  | _ => None
  end.

Definition axis (s : Shape) (i : nat) : option Z := default None (s !! i).

Definition flag (l : Layer.t) (key : string) : bool :=
  truthy (default PyNone (Layer.config l !! key)).

Definition shape_for (l : Layer.t) (input_shape : ShapeArg) : Shape :=
  match input_shape with
  | Tuple s =>
      if String.eqb (Layer.class_name l) "Dense" then [axis s 0; output_dim l]
      else if flag l "return_sequences" then [axis s 0; axis s 1; output_dim l]
      else [axis s 0; output_dim l]
  | ShapeList ss => default [] (head ss)
  end.

#[global] Instance methods : Layer.Methods := {
  Layer.get_output_shape_for := shape_for;
  Layer.build := λ _ l, l
}.

(** A recurrent layer that emits its input steps in the order in which
    it visits them. *)
#[global] Instance echo : Layer.Call tensor := {
  Layer.call l X mask :=
    if flag l "go_backwards" then ZTensor.reverse_axis 1 X else X
}.

(** A layer that reduces over the batch: its output has one row. *)
Definition batch_reducing : Layer.Methods := {|
  Layer.get_output_shape_for l input_shape :=
    match input_shape with
    | Tuple s => Some 1 :: drop 1 s
    | ShapeList ss => Some 1 :: drop 1 (default [] (head ss))
    end;
  Layer.build := λ _ l, l
|}.

Definition recurrent (name : string) (units : Z) (return_sequences : bool)
  : Layer.t :=
  Layer.mk "LSTM" name
    (<["go_backwards" := PyBool false]>
       (<["return_sequences" := PyBool return_sequences]>
          (<["stateful" := PyBool false]>
             {[ "output_dim" := PyInt units ]})))
    false None [] [] [] [] ∅ false.

Definition dense (name : string) (units : Z) : Layer.t :=
  Layer.mk "Dense" name {[ "output_dim" := PyInt units ]}
    false None [] [] [] [] ∅ false.

Definition lstm : Layer.t := recurrent "lstm_1" 10 false.
Definition lstm_seq : Layer.t := recurrent "lstm_1" 3 true.

Definition store (l : Layer.t) : heap := {[ 1%positive := l ]}.

Definition time_distributed (input_spec : list Shape) : TimeDistributed.t :=
  TimeDistributed.mk (Wrapper.mk 1%positive false ∅ [] [] [] [] ∅) true input_spec.

(** A wrapper whose forward layer is object 1 and whose backward layer
    is object 2, and a store with two such layers, built and holding one
    and two weights. *)
Definition bidirectional (merge_mode : pyval) (return_sequences : bool)
  : Bidirectional.t :=
  Bidirectional.mk 1 2 merge_mode (PyBool false) (PyBool return_sequences) true
    (Wrapper.mk 1 false ∅ [] [] [] [] ∅).

Definition holding (ws : list tensor) (go_backwards : bool) (l : Layer.t)
  : Layer.t :=
  Layer.mk (Layer.class_name l) (Layer.name l)
    (<["go_backwards" := PyBool go_backwards]> (Layer.config l))
    (Layer.uses_learning_phase l) (Layer.initial_weights l) ws [] [] [] ∅ true.

Definition pair_store : heap :=
  <[2%positive := holding [Scalar 0; Scalar 0] true (recurrent "backward_lstm_1" 3 true)]>
    {[ 1%positive := holding [Scalar 0] false (recurrent "forward_lstm_1" 3 true) ]}.

(** Tensors that refuse to be used as a truth value, as the results of
    comparisons do. *)
Definition refusing : TensorTruth tensor := {|
  truth_value _ := Raise (TypeError "a tensor has no truth value")
|}.

Definition mask1 : tensor :=
  Tensor [Tensor [Scalar 1; Scalar 0]; Tensor [Scalar 1; Scalar 1]].
Definition mask2 : tensor :=
  Tensor [Tensor [Scalar 1; Scalar 1]; Tensor [Scalar 0; Scalar 1]].

End Examples.

(** ** What the specification calls the combination of masks

    The elementwise logical AND of the masks that are present, computed by
    stacking them along a new first axis and taking the product along it. *)
Definition stack_and_multiply (masks : list tensor) : tensor :=
  K_prod (Tensor masks) 0.

Definition logical_and (a b : tensor) : tensor :=
  ZTensor.elementwise (λ x y, if (x =? 0) || (y =? 0) then 0 else 1) a b.

(** Computations that never raise a [ValueError]. *)
Definition no_ValueError {A} (m : M A) : Prop :=
  ∀ h msg, m h ≠ Raise (ValueError msg).

(** The shapes of a shape argument, as [build] lists them. *)
Definition shape_list (input_shape : ShapeArg) : list Shape :=
  match input_shape with
  | ShapeList ss => ss
  | Tuple s => [s]
  end.

(** Computations that leave the store as it is whenever they return. *)
Definition read_only {A} (m : M A) : Prop :=
  ∀ h a h', m h = Ok (a, h') → h' = h.

(** * Properties *)

(** ** Running computations *)

Section monad_lemmas.
Context {A B : Type}.
Implicit Types (h : heap) (r : loc).

Lemma bind_ok (m : M A) (f : A → M B) h a h' :
  m h = Ok (a, h') → (m ≫= f) h = f a h'.
Proof. unfold mbind, M_bind. by intros ->. Qed.

Lemma bind_raise (m : M A) (f : A → M B) h e :
  m h = Raise e → (m ≫= f) h = Raise e.
Proof. unfold mbind, M_bind. by intros ->. Qed.

Lemma bind_inv_raise (m : M A) (f : A → M B) h e :
  (m ≫= f) h = Raise e →
  m h = Raise e ∨ ∃ a h', m h = Ok (a, h') ∧ f a h' = Raise e.
Proof.
  unfold mbind, M_bind. destruct (m h) as [[a h']|e'].
  - intros Hf. right. by exists a, h'.
  - intros [= ->]. by left.
Qed.

Lemma bind_inv_ok (m : M A) (f : A → M B) h b h'' :
  (m ≫= f) h = Ok (b, h'') →
  ∃ a h', m h = Ok (a, h') ∧ f a h' = Ok (b, h'').
Proof.
  unfold mbind, M_bind. destruct (m h) as [[a h']|e']; [|done].
  intros Hf. by exists a, h'.
Qed.

Lemma bind_ret (a : A) (f : A → M B) h : (mret a ≫= f) h = f a h.
Proof. done. Qed.

Lemma bind_lift_ok (a : A) (f : A → M B) h : (lift (Ok a) ≫= f) h = f a h.
Proof. done. Qed.

Lemma bind_lift_ret (a : A) (f : A → M B) h : (lift (mret a) ≫= f) h = f a h.
Proof. done. Qed.

Lemma bind_lift_raise (e : exn) (f : A → M B) h :
  (lift (Raise e) ≫= f) h = Raise e.
Proof. done. Qed.
End monad_lemmas.

Lemma bind_assoc {A B C} (m : M A) (f : A → M B) (g : B → M C) (h : heap) :
  ((m ≫= f) ≫= g) h = (m ≫= λ a, f a ≫= g) h.
Proof. unfold mbind, M_bind. by destruct (m h) as [[a h']|e]. Qed.

Lemma deref_ok (r : loc) (h : heap) l : h !! r = Some l → deref r h = Ok (l, h).
Proof. unfold deref. by intros ->. Qed.

Lemma update_ok (r : loc) f (h : heap) l :
  h !! r = Some l → update r f h = Ok (tt, <[r := f l]> h).
Proof. unfold update. by intros ->. Qed.

Lemma update_with_ok (r : loc) f (h : heap) l l' :
  h !! r = Some l → f l = Ok l' → update_with r f h = Ok (tt, <[r := l']> h).
Proof. unfold update_with. by intros -> ->. Qed.

Lemma alloc_ok (l : Layer.t) (h : heap) :
  alloc l h = Ok (fresh (dom h), <[fresh (dom h) := l]> h).
Proof. done. Qed.

(** Stores built by the same updates in another order are equal. *)
Ltac heap_eq :=
  apply map_eq; intros ?; rewrite !lookup_insert;
  repeat case_decide; first [reflexivity | congruence].

Lemma fresh_not_in (h : heap) : h !! fresh (dom h) = None.
Proof. apply not_elem_of_dom, is_fresh. Qed.

Lemma fresh_ne (h : heap) r l : h !! r = Some l → fresh (dom h) ≠ r.
Proof. intros Hr Heq. rewrite <- Heq, fresh_not_in in Hr. done. Qed.

(** ** Shape inference of Bidirectional *)

Lemma double_last_snoc (pre : Shape) (n : Z) :
  Bidirectional.double_last (pre ++ [Some n]) = Ok (pre ++ [Some (2 * n)]).
Proof.
  unfold Bidirectional.double_last.
  rewrite length_app, Nat.add_1_r. unfold getitem.
  rewrite list_lookup_middle by done. simpl.
  rewrite insert_app_r_alt by lia. rewrite Nat.sub_diag. simpl.
  by rewrite Z.mul_comm.
Qed.

(** Without a known last size there is nothing to double: the in-place
    multiplication raises. *)
Lemma double_last_unknown (pre : Shape) :
  ∃ msg, Bidirectional.double_last (pre ++ [None]) = Raise (TypeError msg).
Proof.
  unfold Bidirectional.double_last.
  rewrite length_app, Nat.add_1_r. unfold getitem.
  rewrite list_lookup_middle by done. simpl. eauto.
Qed.

Lemma double_last_empty :
  ∃ msg, Bidirectional.double_last [] = Raise (IndexError msg).
Proof. simpl. eauto. Qed.

(** C1.  Shape inference of [Bidirectional], for every input shape and
    every allowed merge mode: with 'sum', 'ave' or 'mul' the result is the
    shape inferred by the forward layer; with 'concat' it is that shape with
    the size of its last axis doubled; with [None] it is the list of two
    copies of that shape.  The store is left as it was. *)
Theorem Bidirectional_get_output_shape_for_spec `{Layer.Methods}
    (self : Bidirectional.t) (h : heap) (f : Layer.t) (s : ShapeArg) :
  h !! Bidirectional.forward_layer self = Some f →
  let forward_shape := Layer.get_output_shape_for f s in
  (∀ m : string, m ∈ ["sum"; "ave"; "mul"]%string →
     Bidirectional.merge_mode self = PyStr m →
     Bidirectional.get_output_shape_for self s h
     = Ok (Some (Tuple forward_shape), h))
  ∧ (Bidirectional.merge_mode self = PyStr "concat" →
     ∀ (pre : Shape) (n : Z), forward_shape = pre ++ [Some n] →
     Bidirectional.get_output_shape_for self s h
     = Ok (Some (Tuple (pre ++ [Some (2 * n)])), h))
  ∧ (Bidirectional.merge_mode self = PyNone →
     Bidirectional.get_output_shape_for self s h
     = Ok (Some (ShapeList [forward_shape; forward_shape]), h)).
Proof.
  intros Hf fs. unfold Bidirectional.get_output_shape_for.
  split; [|split].
  - intros m Hm ->.
    assert (existsb (eq_str (PyStr m)) ["sum"; "ave"; "mul"]%string = true) as ->.
    { set_unfold in Hm. destruct Hm as [->| [->| [->|[]]]]; reflexivity. }
    rewrite (bind_ok _ _ _ _ _ (deref_ok _ _ _ Hf)). done.
  - intros -> pre n Hfs. simpl.
    rewrite (bind_ok _ _ _ _ _ (deref_ok _ _ _ Hf)).
    fold fs. rewrite Hfs, double_last_snoc. done.
  - intros ->. simpl.
    rewrite (bind_ok _ _ _ _ _ (deref_ok _ _ _ Hf)). done.
Qed.

(** The example of the specification: input [(32, 5, 10)], a recurrent
    layer of 10 units that returns its final step, merged by 'concat'. *)
Lemma Bidirectional_get_output_shape_for_witness :
  Bidirectional.get_output_shape_for
    (Examples.bidirectional (PyStr "concat") false)
    (Tuple [Some 32; Some 5; Some 10]) (Examples.store Examples.lstm)
  = Ok (Some (Tuple [Some 32; Some 20]), Examples.store Examples.lstm).
Proof.
  pose proof (Bidirectional_get_output_shape_for_spec
    (Examples.bidirectional (PyStr "concat") false)
    (Examples.store Examples.lstm) Examples.lstm
    (Tuple [Some 32; Some 5; Some 10]) eq_refl) as (_ & Hconcat & _).
  exact (Hconcat eq_refl [Some 32] 10 eq_refl).
Defined.

(** Another example of the specification: without a merge mode, a
    recurrent layer of 3 units that returns the full sequence gives, on
    input [(None, 7, 4)], the list of two shapes [(None, 7, 3)]. *)
Example Bidirectional_get_output_shape_for_no_merge :
  Bidirectional.get_output_shape_for (Examples.bidirectional PyNone true)
    (Tuple [None; Some 7; Some 4]) (Examples.store Examples.lstm_seq)
  = Ok (Some (ShapeList [[None; Some 7; Some 3]; [None; Some 7; Some 3]]),
        Examples.store Examples.lstm_seq).
Proof. reflexivity. Qed.

(** A merge mode that the constructor would have refused matches no
    branch, and the method returns nothing. *)
Example Bidirectional_get_output_shape_for_other_mode :
  Bidirectional.get_output_shape_for (Examples.bidirectional (PyStr "max") true)
    (Tuple [None; Some 7; Some 4]) (Examples.store Examples.lstm_seq)
  = Ok (None, Examples.store Examples.lstm_seq).
Proof. reflexivity. Qed.

(** ** Shape inference of TimeDistributed *)

Lemma mapM_result_ok {A B} (f : A → result B) (g : A → B) (xs : list A) :
  Forall (λ x, f x = Ok (g x)) xs → mapM f xs = Ok (g <$> xs).
Proof.
  induction 1 as [|x xs Hx _ IH]; [done|].
  simpl. rewrite Hx. simpl. rewrite IH. done.
Qed.

(** The code builds the child shape from the batch axis and the axes from
    the third on; that is the shape with its time axis deleted. *)
Lemma child_shape_delete (s : Shape) :
  (1 ≤ length s)%nat → child_shape s = Ok (delete 1%nat s).
Proof.
  destruct s as [|b [|t s]]; simpl; [lia|done|done].
Qed.

Lemma py_max_foldl (ns : list Z) (a : Z) :
  ∃ m, foldl (λ a b : option Z, match a, b with
                                | Some m, Some n => Some (Z.max m n)
                                | _, _ => None
                                end) (Some a) (Some <$> ns) = Some m
       ∧ a ≤ m ∧ (m = a ∨ m ∈ ns) ∧ ∀ n, n ∈ ns → n ≤ m.
Proof.
  revert a. induction ns as [|n ns IH]; intros a; simpl.
  - exists a. split_and!; [done|lia|by left|]. intros n Hn. by apply elem_of_nil in Hn.
  - destruct (IH (Z.max a n)) as (m & Hm & Hle & Hin & Hall).
    exists m. split_and!; [exact Hm|lia| |].
    + destruct Hin as [->|Hin].
      * destruct (Z.max_spec a n) as [[_ ->]|[_ ->]]; [right; left|by left].
      * right. by right.
    + intros k [->|Hk]%elem_of_cons; [lia|by apply Hall].
Qed.

(** [max] of a non-empty list of known sizes is one of them and bounds
    them all. *)
Lemma py_max_known (ns : list Z) :
  ns ≠ [] →
  ∃ m, py_max (Some <$> ns) = Ok (Some m) ∧ m ∈ ns ∧ ∀ n, n ∈ ns → n ≤ m.
Proof.
  destruct ns as [|a ns]; [done|]. intros _. simpl.
  destruct (py_max_foldl ns a) as (m & Hm & Hle & Hin & Hall).
  exists m. split_and!; [by rewrite <- Hm| |].
  - destruct Hin as [->|Hin]; [left|by right].
  - intros k [->|Hk]%elem_of_cons; [lia|by apply Hall].
Qed.

Lemma py_max_empty : ∃ msg, py_max [] = Raise (ValueError msg).
Proof. simpl. eauto. Qed.

Section TimeDistributed_shapes.
Context `{Layer.Methods}.
Variables (self : TimeDistributed.t) (h : heap) (l : Layer.t).
Hypothesis Hlayer : h !! TimeDistributed.layer self = Some l.

(** One input shape: the time axis is set aside, the inner layer infers
    the shape of a step, and the time axis is put back at position 1. *)
Lemma TimeDistributed_shape_single (s : Shape) (b : option Z) (out : Shape) :
  (2 ≤ length s)%nat →
  Layer.get_output_shape_for l (Tuple (delete 1%nat s)) = b :: out →
  ∃ ts, s !! 1%nat = Some ts
        ∧ TimeDistributed.get_output_shape_for self (Tuple s) h
          = Ok (b :: ts :: out, h).
Proof.
  intros Hlen Hout.
  destruct s as [|b0 [|ts s]]; simpl in Hlen; [lia|lia|].
  exists ts. split; [done|].
  unfold TimeDistributed.get_output_shape_for. simpl.
  rewrite bind_lift_ret.
  rewrite (bind_ok _ _ _ _ _ (deref_ok _ _ _ Hlayer)).
  simpl in Hout. rewrite !drop_0, Hout. done.
Qed.

(** The inner layer decides axis 0: a shape inference that returns no
    axis at all makes the indexing fail. *)
Lemma TimeDistributed_shape_single_empty (s : Shape) :
  (2 ≤ length s)%nat →
  Layer.get_output_shape_for l (Tuple (delete 1%nat s)) = [] →
  ∃ msg, TimeDistributed.get_output_shape_for self (Tuple s) h
         = Raise (IndexError msg).
Proof.
  intros Hlen Hout.
  destruct s as [|b0 [|ts s]]; simpl in Hlen; [lia|lia|].
  unfold TimeDistributed.get_output_shape_for. simpl.
  rewrite bind_lift_ret.
  rewrite (bind_ok _ _ _ _ _ (deref_ok _ _ _ Hlayer)).
  simpl in Hout. rewrite !drop_0, Hout. simpl. eauto.
Qed.

Lemma TimeDistributed_shape_list (ss : list Shape) (b : option Z) (out : Shape) :
  ss ≠ [] →
  Forall (λ s : Shape, (2 ≤ length s)%nat) ss →
  Layer.get_output_shape_for l (ShapeList (delete 1%nat <$> ss)) = b :: out →
  ∃ ts, TimeDistributed.get_output_shape_for self (ShapeList ss) h
        = Ok (b :: ts :: out, h)
    ∧ ((∃ s : Shape, s ∈ ss ∧ s !! 1%nat = Some None) → ts = None)
    ∧ ((∀ s : Shape, s ∈ ss → s !! 1%nat ≠ Some None) →
       ∃ m, ts = Some m
            ∧ (∃ s : Shape, s ∈ ss ∧ s !! 1%nat = Some (Some m))
            ∧ ∀ (s : Shape) n, s ∈ ss → s !! 1%nat = Some (Some n) → n ≤ m).
Proof.
  intros Hne Hlen Hout.
  set (t1 := λ s : Shape, default None (s !! 1%nat)).
  assert (mapM (λ shape : Shape, getitem shape 1) ss = Ok (t1 <$> ss)) as Hts.
  { apply mapM_result_ok. eapply Forall_impl; [exact Hlen|].
    intros [|b0 [|ts s]] Hs; simpl in Hs; [lia|lia|done]. }
  assert (mapM child_shape ss = Ok (delete 1%nat <$> ss)) as Hch.
  { apply mapM_result_ok. eapply Forall_impl; [exact Hlen|].
    intros s Hs. apply child_shape_delete. simpl in Hs. lia. }
  assert (∀ s : Shape, s ∈ ss → s !! 1%nat = Some (t1 s)) as Ht1.
  { intros s Hs. rewrite Forall_forall in Hlen. specialize (Hlen s Hs).
    destruct s as [|b0 [|ts s]]; simpl in Hlen; [lia|lia|done]. }
  unfold TimeDistributed.get_output_shape_for.
  destruct (decide (None ∈ t1 <$> ss)) as [Hnone|Hknown].
  - exists None. split; [|split].
    + cbn -[mapM]. rewrite Hts. cbn -[mapM].
      rewrite bool_decide_eq_true_2 by done. cbn -[mapM]. rewrite Hch. cbn -[mapM].
      rewrite bind_lift_ret.
      rewrite (bind_ok _ _ _ _ _ (deref_ok _ _ _ Hlayer)).
      rewrite Hout. done.
    + done.
    + intros Hall. exfalso.
      apply list_elem_of_fmap in Hnone as (s & Hs1 & Hs).
      apply (Hall s Hs). rewrite (Ht1 s Hs). by rewrite <- Hs1.
  - assert (∃ ns, t1 <$> ss = Some <$> ns ∧ ns ≠ []) as (ns & Hns & Hnsne).
    { exists (omap t1 ss). split.
      - clear -Hknown. induction ss as [|s ss' IH]; [done|].
        rewrite fmap_cons in Hknown. simpl.
        destruct (t1 s) as [n|] eqn:Hs.
        + rewrite fmap_cons. f_equal. apply IH.
          intros Hin. apply Hknown. by right.
        + exfalso. apply Hknown. left.
      - destruct ss as [|s ss']; [done|]. simpl.
        destruct (t1 s) as [n|] eqn:Hs; [done|].
        exfalso. apply Hknown. rewrite fmap_cons, Hs. left. }
    destruct (py_max_known ns Hnsne) as (m & Hmax & Hm & Hbound).
    exists (Some m). split; [|split].
    + cbn -[mapM]. rewrite Hts. cbn -[mapM py_max].
      rewrite bool_decide_eq_false_2 by done. rewrite Hns, Hmax.
      cbn -[mapM]. rewrite Hch. cbn -[mapM].
      rewrite bind_lift_ret.
      rewrite (bind_ok _ _ _ _ _ (deref_ok _ _ _ Hlayer)).
      rewrite Hout. done.
    + intros (s & Hs & Hs1). exfalso. apply Hknown.
      apply list_elem_of_fmap. exists s. split; [|done].
      rewrite (Ht1 s Hs) in Hs1. congruence.
    + intros _. exists m. split; [done|]. split.
      * assert (Some m ∈ t1 <$> ss) as Hin.
        { rewrite Hns. apply list_elem_of_fmap. by exists m. }
        apply list_elem_of_fmap in Hin as (s & Hs1 & Hs).
        exists s. split; [done|]. rewrite (Ht1 s Hs). by rewrite <- Hs1.
      * intros s n Hs Hs1. apply Hbound.
        assert (Some n ∈ t1 <$> ss) as Hin.
        { apply list_elem_of_fmap. exists s. split; [|done].
          rewrite (Ht1 s Hs) in Hs1. congruence. }
        rewrite Hns in Hin. apply list_elem_of_fmap in Hin as (n' & [= ->] & Hn').
        done.
Qed.
End TimeDistributed_shapes.

(** C2, as amended.  For every input shape [s] of rank at least 3 the
    inferred shape has [s[1]] at axis 1; its axis 0 is axis 0 of the shape
    the inner layer infers for the child shape ([s] with axis 1 dropped), so
    it is [s[0]] for inner layers that keep the batch axis; the axes from 2
    on are the remaining axes of the inner layer's shape.  For a non-empty
    list of input shapes, axis 1 is [None] if the sequence length of any
    input is unknown and the maximum of the sequence lengths otherwise, and
    the other axes come from the inner layer's inference on the list of
    child shapes. *)
Theorem TimeDistributed_get_output_shape_for_spec `{Layer.Methods}
    (self : TimeDistributed.t) (h : heap) (l : Layer.t) :
  h !! TimeDistributed.layer self = Some l →
  (∀ (s : Shape) (b : option Z) (out : Shape),
     (3 ≤ length s)%nat →
     Layer.get_output_shape_for l (Tuple (delete 1%nat s)) = b :: out →
     ∃ ts, s !! 1%nat = Some ts
           ∧ TimeDistributed.get_output_shape_for self (Tuple s) h
             = Ok (b :: ts :: out, h))
  ∧ (∀ (ss : list Shape) (b : option Z) (out : Shape),
     ss ≠ [] →
     Forall (λ s : Shape, (3 ≤ length s)%nat) ss →
     Layer.get_output_shape_for l (ShapeList (delete 1%nat <$> ss)) = b :: out →
     ∃ ts, TimeDistributed.get_output_shape_for self (ShapeList ss) h
           = Ok (b :: ts :: out, h)
       ∧ ((∃ s : Shape, s ∈ ss ∧ s !! 1%nat = Some None) → ts = None)
       ∧ ((∀ s : Shape, s ∈ ss → s !! 1%nat ≠ Some None) →
          ∃ m, ts = Some m
               ∧ (∃ s : Shape, s ∈ ss ∧ s !! 1%nat = Some (Some m))
               ∧ ∀ (s : Shape) n, s ∈ ss → s !! 1%nat = Some (Some n) → n ≤ m)).
Proof.
  intros Hlayer. split.
  - intros s b out Hlen Hout.
    apply (TimeDistributed_shape_single self h l Hlayer); [lia|done].
  - intros ss b out Hne Hlen Hout.
    apply (TimeDistributed_shape_list self h l Hlayer); [done| |done].
    eapply Forall_impl; [exact Hlen|]. intros s Hs. simpl in Hs. lia.
Qed.

(** The example of the specification: input [(None, 10, 16)] and a dense
    inner layer of 8 units give [(None, 10, 8)]. *)
Lemma TimeDistributed_get_output_shape_for_witness :
  TimeDistributed.get_output_shape_for (Examples.time_distributed [])
    (Tuple [None; Some 10; Some 16])
    (Examples.store (Examples.dense "dense_1" 8))
  = Ok ([None; Some 10; Some 8], Examples.store (Examples.dense "dense_1" 8)).
Proof.
  destruct (TimeDistributed_get_output_shape_for_spec
              (Examples.time_distributed [])
              (Examples.store (Examples.dense "dense_1" 8))
              (Examples.dense "dense_1" 8) eq_refl) as [Hsingle _].
  destruct (Hsingle [None; Some 10; Some 16] None [Some 8]) as (ts & Hts & Hres).
  - simpl. lia.
  - reflexivity.
  - injection Hts as <-. exact Hres.
Defined.

(** C2 as stated fails for the batch axis: nothing puts [s[0]] back.  With
    an inner layer whose inferred shape has another first axis, axis 0 of
    the result is that axis and not the batch axis of the input. *)
Lemma TimeDistributed_batch_axis_counterexample :
  TimeDistributed.get_output_shape_for (H := Examples.batch_reducing)
    (Examples.time_distributed [])
    (Tuple [Some 32; Some 10; Some 16])
    (Examples.store (Examples.dense "dense_1" 8))
  = Ok ([Some 1; Some 10; Some 16], Examples.store (Examples.dense "dense_1" 8))
  ∧ ([Some 1; Some 10; Some 16] : Shape) !! 0%nat
    ≠ ([Some 32; Some 10; Some 16] : Shape) !! 0%nat.
Proof. split; [reflexivity|discriminate]. Qed.

(** ** Construction of Bidirectional: the merge mode *)

Lemma merge_mode_allowed_iff (merge_mode : pyval) :
  Bidirectional.merge_mode_allowed merge_mode = true
  ↔ merge_mode ∈ [PyStr "sum"; PyStr "mul"; PyStr "ave"; PyStr "concat"; PyNone].
Proof.
  unfold Bidirectional.merge_mode_allowed. split.
  - destruct merge_mode as [| | |s| |]; simpl; try discriminate.
    + intros _. set_solver.
    + rewrite orb_false_r, !orb_true_iff, !String.eqb_eq.
      intros [->|[->|[->|[->|[=]]]]]; set_solver.
  - set_unfold. intros [->|[->|[->|[->|[->|[]]]]]]; reflexivity.
Qed.

Section no_ValueError.
Context {A B : Type}.

Lemma no_ValueError_bind (m : M A) (f : A → M B) :
  no_ValueError m → (∀ a, no_ValueError (f a)) → no_ValueError (m ≫= f).
Proof.
  intros Hm Hf h msg [Hr|(a & h' & _ & Hr)]%bind_inv_raise.
  - by apply (Hm h msg).
  - by apply (Hf a h' msg).
Qed.

Lemma no_ValueError_ret (a : A) : no_ValueError (mret a : M A).
Proof. intros h msg. discriminate. Qed.

Lemma no_ValueError_lift (r : result A) :
  (∀ msg, r ≠ Raise (ValueError msg)) → no_ValueError (lift r).
Proof.
  intros Hr h msg. unfold lift. destruct r as [a|e]; [discriminate|].
  intros [= ->]. by apply (Hr msg).
Qed.
End no_ValueError.

Lemma no_ValueError_deref r : no_ValueError (deref r).
Proof. intros h msg. unfold deref. destruct (h !! r); discriminate. Qed.

Lemma no_ValueError_update r f : no_ValueError (update r f).
Proof. intros h msg. unfold update. destruct (h !! r); discriminate. Qed.

Lemma no_ValueError_alloc l : no_ValueError (alloc l).
Proof. intros h msg. discriminate. Qed.

Lemma no_ValueError_dict_getitem d k msg :
  dict_getitem d k ≠ Raise (ValueError msg).
Proof. unfold dict_getitem. destruct (d !! k); discriminate. Qed.

Lemma no_ValueError_getattr l attr msg :
  Layer.getattr l attr ≠ Raise (ValueError msg).
Proof. unfold Layer.getattr. destruct (Layer.config l !! attr); discriminate. Qed.

Lemma no_ValueError_assign_initial_weights f b ws :
  no_ValueError (Bidirectional.assign_initial_weights f b ws).
Proof.
  unfold Bidirectional.assign_initial_weights.
  destruct ws as [[|w ws]|]; try apply no_ValueError_ret.
  apply no_ValueError_bind; [apply no_ValueError_update|].
  intros _. apply no_ValueError_update.
Qed.

Create HintDb no_value_error.

#[local] Hint Resolve no_ValueError_ret no_ValueError_deref no_ValueError_update
  no_ValueError_alloc no_ValueError_assign_initial_weights
  no_ValueError_dict_getitem no_ValueError_getattr : no_value_error.

Ltac no_value_error :=
  repeat first
    [ apply no_ValueError_bind; [|intros ?]
    | apply no_ValueError_lift; intros ?
    | solve [eauto with no_value_error] ].

(** C4.  Constructing a [Bidirectional] fails with the error that names
    the allowed merge modes exactly when the merge mode is none of 'sum',
    'mul', 'ave', 'concat' and [None]; the error is raised before the layer
    or the store is looked at, whatever the other arguments are.  The error
    class of the source is [ValueError]. *)
Theorem Bidirectional_init_invalid_merge_mode (layer : loc) (merge_mode : pyval)
    (weights : option (list tensor)) (kwargs : gmap string pyval) (h : heap) :
  (Bidirectional.__init__ layer merge_mode weights kwargs h
   = Raise (ValueError Bidirectional.invalid_merge_mode_message)
   ↔ merge_mode ∉ [PyStr "sum"; PyStr "mul"; PyStr "ave"; PyStr "concat"; PyNone])
  ∧ Forall (λ allowed, contains allowed Bidirectional.invalid_merge_mode_message = true)
      ["sum"; "mul"; "ave"; "concat"; "None"]%string.
Proof.
  split.
  - rewrite <- merge_mode_allowed_iff. unfold Bidirectional.__init__.
    destruct (Bidirectional.merge_mode_allowed merge_mode); simpl.
    + split; [|by intros []]. intros Hraise. exfalso. revert Hraise.
      generalize Bidirectional.invalid_merge_mode_message. revert h.
      change (no_ValueError
        (l ← deref layer;
         go_backwards ← lift (dict_getitem (Layer.get_config l) "go_backwards");
         backward_layer ← alloc (Layer.from_config (Layer.class_name l)
            (<["go_backwards" := py_not go_backwards]> (Layer.get_config l)));
         _ ← update layer (λ l, Layer.set_name ("forward_" +:+ Layer.name l) l);
         _ ← update backward_layer
               (λ l, Layer.set_name ("backward_" +:+ Layer.name l) l);
         _ ← Bidirectional.assign_initial_weights layer backward_layer weights;
         l ← deref layer;
         stateful ← lift (Layer.getattr l "stateful");
         return_sequences ← lift (Layer.getattr l "return_sequences");
         w ← Wrapper.__init__ layer kwargs;
         mret (Bidirectional.mk layer backward_layer merge_mode stateful
                 return_sequences true w))).
      unfold Wrapper.__init__. no_value_error.
    + split; [done|]. intros _. done.
  - repeat constructor.
Qed.

(** ** Construction of Bidirectional: the two layers *)

Lemma dict_getitem_ok (d : gmap string pyval) k v :
  d !! k = Some v → dict_getitem d k = Ok v.
Proof. unfold dict_getitem. by intros ->. Qed.

Lemma getattr_ok (l : Layer.t) attr v :
  Layer.config l !! attr = Some v → Layer.getattr l attr = Ok v.
Proof. unfold Layer.getattr. by intros ->. Qed.

(** The clone made for the backward layer, once renamed: same class, the
    name of the template behind the prefix, the constructor arguments of
    the template with the direction flag negated, and nothing built. *)
Lemma backward_clone (l : Layer.t) (go_backwards : pyval) :
  (λ b, Layer.set_name ("backward_" +:+ Layer.name b) b)
    (Layer.from_config (Layer.class_name l)
       (<["go_backwards" := py_not go_backwards]> (Layer.get_config l)))
  = Layer.mk (Layer.class_name l) ("backward_" +:+ Layer.name l)
      (<["go_backwards" := py_not go_backwards]> (delete "name" (Layer.config l)))
      false None [] [] [] [] ∅ false.
Proof.
  unfold Layer.set_name, Layer.from_config, Layer.get_config. simpl.
  rewrite lookup_insert_ne by done. rewrite lookup_insert_eq.
  rewrite delete_insert_ne by done. rewrite delete_insert_eq. done.
Qed.

Section Bidirectional_init.
Variables (layer : loc) (merge_mode : pyval) (weights : option (list tensor))
          (kwargs : gmap string pyval) (h : heap) (l : Layer.t)
          (go_backwards stateful return_sequences : pyval).
Hypothesis Hmode : Bidirectional.merge_mode_allowed merge_mode = true.
Hypothesis Hlayer : h !! layer = Some l.
Hypothesis Hgo_backwards : Layer.config l !! "go_backwards" = Some go_backwards.
Hypothesis Hstateful : Layer.config l !! "stateful" = Some stateful.
Hypothesis Hreturn_sequences :
  Layer.config l !! "return_sequences" = Some return_sequences.

(** With an allowed merge mode and a recurrent template in the store the
    constructor returns; this is the wrapper it returns and the two layer
    objects it leaves in the store. *)
Lemma Bidirectional_init_ok :
  Bidirectional.__init__ layer merge_mode weights kwargs h
  = Ok (Bidirectional.mk layer (fresh (dom h)) merge_mode stateful
          return_sequences true
          (Wrapper.mk layer (Layer.uses_learning_phase l) kwargs [] [] [] [] ∅),
        <[fresh (dom h) :=
            Layer.mk (Layer.class_name l) ("backward_" +:+ Layer.name l)
              (<["go_backwards" := py_not go_backwards]>
                 (delete "name" (Layer.config l)))
              false
              (match weights with
               | Some ((_ :: _) as ws) => Some (drop (length ws / 2) ws)
               | _ => None
               end)
              [] [] [] [] ∅ false]>
          (<[layer :=
               Layer.mk (Layer.class_name l) ("forward_" +:+ Layer.name l)
                 (Layer.config l) (Layer.uses_learning_phase l)
                 (match weights with
                  | Some ((_ :: _) as ws) => Some (take (length ws / 2) ws)
                  | _ => Layer.initial_weights l
                  end)
                 (Layer.trainable_weights l) (Layer.non_trainable_weights l)
                 (Layer.updates l) (Layer.losses l) (Layer.constraints l)
                 (Layer.built l)]> h)).
Proof.
  pose proof (fresh_ne h layer l Hlayer) as Hne.
  unfold Bidirectional.__init__. rewrite Hmode. cbn [negb].
  rewrite (bind_ok _ _ _ _ _ (deref_ok _ _ _ Hlayer)).
  erewrite (dict_getitem_ok (Layer.get_config l) "go_backwards"); last first.
  { unfold Layer.get_config. rewrite lookup_insert_ne by done. exact Hgo_backwards. }
  rewrite bind_lift_ok.
  rewrite (bind_ok _ _ _ _ _ (alloc_ok _ _)).
  erewrite bind_ok; last first.
  { apply update_ok. rewrite lookup_insert_ne by done. exact Hlayer. }
  erewrite bind_ok; last first.
  { apply update_ok. rewrite lookup_insert_ne by done. apply lookup_insert_eq. }
  cbv beta. rewrite backward_clone.
  assert (∀ F : Layer.t, ∀ hh : heap,
            hh !! layer = Some F →
            Layer.config F = Layer.config l →
            Layer.uses_learning_phase F = Layer.uses_learning_phase l →
            (l ← deref layer;
             stateful ← lift (Layer.getattr l "stateful");
             return_sequences ← lift (Layer.getattr l "return_sequences");
             w ← Wrapper.__init__ layer kwargs;
             mret (Bidirectional.mk layer (fresh (dom h)) merge_mode stateful
                     return_sequences true w)) hh
            = Ok (Bidirectional.mk layer (fresh (dom h)) merge_mode stateful
                    return_sequences true
                    (Wrapper.mk layer (Layer.uses_learning_phase l) kwargs
                       [] [] [] [] ∅), hh)) as Htail.
  { intros F hh HF Hcfg Hulp.
    rewrite (bind_ok _ _ _ _ _ (deref_ok _ _ _ HF)).
    rewrite (getattr_ok F "stateful" stateful) by (by rewrite Hcfg).
    rewrite bind_lift_ok.
    rewrite (getattr_ok F "return_sequences" return_sequences)
      by (by rewrite Hcfg).
    rewrite bind_lift_ok. unfold Wrapper.__init__.
    rewrite (bind_ok _ _ _ _ _
               (bind_ok _ _ _ _ _ (deref_ok _ _ _ HF))).
    rewrite Hulp. done. }
  destruct weights as [[|w ws]|];
    cbn [Bidirectional.assign_initial_weights].
  - rewrite bind_ret.
    erewrite Htail; [|by rewrite lookup_insert_ne, lookup_insert_eq|done|done].
    f_equal. f_equal. heap_eq.
  - erewrite bind_ok; last first.
    { erewrite bind_ok; last first.
      { apply update_ok. rewrite lookup_insert_ne by done. apply lookup_insert_eq. }
      apply update_ok. rewrite lookup_insert_ne by done. apply lookup_insert_eq. }
    erewrite Htail; [|by rewrite lookup_insert_ne, lookup_insert_eq|done|done].
    f_equal. f_equal. heap_eq.
  - rewrite bind_ret.
    erewrite Htail; [|by rewrite lookup_insert_ne, lookup_insert_eq|done|done].
    f_equal. f_equal. heap_eq.
Qed.
End Bidirectional_init.

(** C10.  The constructor works on the caller's layer object: the forward
    layer of the wrapper (and its [layer]) is the reference that was passed
    in, and after the call the object behind that reference carries the
    name with the 'forward_' prefix; without explicit weights nothing else
    of it changes.  Only the backward layer is a new object: its reference
    was not in the store before, and it is an unbuilt instance of the
    template's class.  No other object changes. *)
Theorem Bidirectional_init_renames_template (layer : loc) (merge_mode : pyval)
    (weights : option (list tensor)) (kwargs : gmap string pyval) (h : heap)
    (l : Layer.t) (go_backwards stateful return_sequences : pyval) :
  merge_mode ∈ [PyStr "sum"; PyStr "mul"; PyStr "ave"; PyStr "concat"; PyNone] →
  h !! layer = Some l →
  Layer.config l !! "go_backwards" = Some go_backwards →
  Layer.config l !! "stateful" = Some stateful →
  Layer.config l !! "return_sequences" = Some return_sequences →
  ∃ self h' f b,
    Bidirectional.__init__ layer merge_mode weights kwargs h = Ok (self, h')
    ∧ Bidirectional.forward_layer self = layer
    ∧ Wrapper.layer (Bidirectional.base self) = layer
    ∧ h' !! layer = Some f
    ∧ Layer.name f = "forward_" +:+ Layer.name l
    ∧ (weights = None → f = Layer.set_name ("forward_" +:+ Layer.name l) l)
    ∧ h !! Bidirectional.backward_layer self = None
    ∧ h' !! Bidirectional.backward_layer self = Some b
    ∧ Layer.class_name b = Layer.class_name l
    ∧ Layer.built b = false
    ∧ ∀ r, r ≠ layer → r ≠ Bidirectional.backward_layer self → h' !! r = h !! r.
Proof.
  intros Hmode%merge_mode_allowed_iff Hlayer Hgb Hst Hrs.
  pose proof (fresh_ne h layer l Hlayer) as Hne.
  eexists _, _, _, _. split.
  { exact (Bidirectional_init_ok layer merge_mode weights kwargs h l
             go_backwards stateful return_sequences Hmode Hlayer Hgb Hst Hrs). }
  cbn [Bidirectional.forward_layer Bidirectional.backward_layer
       Bidirectional.base Wrapper.layer].
  split_and!.
  - reflexivity.
  - reflexivity.
  - rewrite lookup_insert_ne by done. by rewrite lookup_insert_eq.
  - reflexivity.
  - by intros ->.
  - apply fresh_not_in.
  - apply lookup_insert_eq.
  - reflexivity.
  - reflexivity.
  - intros r Hr1 Hr2. by rewrite !lookup_insert_ne.
Qed.

(** A template named lstm_1 is called forward_lstm_1 after the wrapper has
    been built around it. *)
Lemma Bidirectional_init_renames_template_witness :
  ∃ self h' f b,
    Bidirectional.__init__ 1 (PyStr "concat") None ∅ (Examples.store Examples.lstm)
    = Ok (self, h')
    ∧ Bidirectional.forward_layer self = 1%positive
    ∧ Wrapper.layer (Bidirectional.base self) = 1%positive
    ∧ h' !! 1%positive = Some f
    ∧ Layer.name f = "forward_" +:+ "lstm_1"
    ∧ (@None (list tensor) = None → f = Layer.set_name ("forward_" +:+ "lstm_1") Examples.lstm)
    ∧ Examples.store Examples.lstm !! Bidirectional.backward_layer self = None
    ∧ h' !! Bidirectional.backward_layer self = Some b
    ∧ Layer.class_name b = "LSTM"
    ∧ Layer.built b = false
    ∧ ∀ r, r ≠ 1%positive → r ≠ Bidirectional.backward_layer self →
           h' !! r = Examples.store Examples.lstm !! r.
Proof.
  apply (Bidirectional_init_renames_template 1 (PyStr "concat") None ∅
           (Examples.store Examples.lstm) Examples.lstm
           (PyBool false) (PyBool false) (PyBool false)).
  - set_solver.
  - reflexivity.
  - reflexivity.
  - reflexivity.
  - reflexivity.
Defined.

(** C8, as amended.  Construction derives two distinct layer objects from
    the template: the forward layer, which is the template itself and keeps
    its direction flag, and the backward layer, a clone whose flag is the
    logical negation of the template's.  Their names are the template's
    name behind 'forward_' and 'backward_', they are of the same class, and
    their configurations agree on every key other than the name and the
    direction flag. *)
Theorem Bidirectional_init_layers (layer : loc) (merge_mode : pyval)
    (weights : option (list tensor)) (kwargs : gmap string pyval) (h : heap)
    (l : Layer.t) (go_backwards stateful return_sequences : pyval) :
  merge_mode ∈ [PyStr "sum"; PyStr "mul"; PyStr "ave"; PyStr "concat"; PyNone] →
  h !! layer = Some l →
  Layer.config l !! "go_backwards" = Some go_backwards →
  Layer.config l !! "stateful" = Some stateful →
  Layer.config l !! "return_sequences" = Some return_sequences →
  ∃ self h' f b,
    Bidirectional.__init__ layer merge_mode weights kwargs h = Ok (self, h')
    ∧ Bidirectional.forward_layer self = layer
    ∧ Bidirectional.forward_layer self ≠ Bidirectional.backward_layer self
    ∧ h' !! Bidirectional.forward_layer self = Some f
    ∧ h' !! Bidirectional.backward_layer self = Some b
    ∧ Layer.get_config f !! "go_backwards" = Some go_backwards
    ∧ Layer.get_config b !! "go_backwards" = Some (PyBool (negb (truthy go_backwards)))
    ∧ Layer.name f = "forward_" +:+ Layer.name l
    ∧ Layer.name b = "backward_" +:+ Layer.name l
    ∧ Layer.class_name f = Layer.class_name b
    ∧ ∀ k, k ≠ "name" → k ≠ "go_backwards" →
           Layer.get_config f !! k = Layer.get_config b !! k.
Proof.
  intros Hmode%merge_mode_allowed_iff Hlayer Hgb Hst Hrs.
  pose proof (fresh_ne h layer l Hlayer) as Hne.
  eexists _, _, _, _. split.
  { exact (Bidirectional_init_ok layer merge_mode weights kwargs h l
             go_backwards stateful return_sequences Hmode Hlayer Hgb Hst Hrs). }
  cbn [Bidirectional.forward_layer Bidirectional.backward_layer].
  split_and!.
  - reflexivity.
  - done.
  - rewrite lookup_insert_ne by done. by rewrite lookup_insert_eq.
  - apply lookup_insert_eq.
  - unfold Layer.get_config. cbn [Layer.config Layer.name].
    by rewrite lookup_insert_ne.
  - unfold Layer.get_config. cbn [Layer.config Layer.name].
    rewrite lookup_insert_ne by done. by rewrite lookup_insert_eq.
  - reflexivity.
  - reflexivity.
  - reflexivity.
  - intros k Hk1 Hk2. unfold Layer.get_config. cbn [Layer.config Layer.name].
    rewrite !lookup_insert_ne by done. by rewrite lookup_delete_ne.
Qed.

(** A forward-running template lstm_1 yields forward_lstm_1 running forward
    and backward_lstm_1 running backward. *)
Lemma Bidirectional_init_layers_witness :
  ∃ self h' f b,
    Bidirectional.__init__ 1 (PyStr "sum") None ∅ (Examples.store Examples.lstm)
    = Ok (self, h')
    ∧ Bidirectional.forward_layer self = 1%positive
    ∧ Bidirectional.forward_layer self ≠ Bidirectional.backward_layer self
    ∧ h' !! Bidirectional.forward_layer self = Some f
    ∧ h' !! Bidirectional.backward_layer self = Some b
    ∧ Layer.get_config f !! "go_backwards" = Some (PyBool false)
    ∧ Layer.get_config b !! "go_backwards" = Some (PyBool true)
    ∧ Layer.name f = "forward_" +:+ "lstm_1"
    ∧ Layer.name b = "backward_" +:+ "lstm_1"
    ∧ Layer.class_name f = Layer.class_name b
    ∧ ∀ k, k ≠ "name" → k ≠ "go_backwards" →
           Layer.get_config f !! k = Layer.get_config b !! k.
Proof.
  apply (Bidirectional_init_layers 1 (PyStr "sum") None ∅
           (Examples.store Examples.lstm) Examples.lstm
           (PyBool false) (PyBool false) (PyBool false)).
  - set_solver.
  - reflexivity.
  - reflexivity.
  - reflexivity.
  - reflexivity.
Defined.

(** C8 as stated fails where it has the template cloned into both layers:
    the forward layer is no clone.  Its reference is the template's, which
    was in the store before the call, and the object the caller passed in
    is not what it was. *)
Lemma Bidirectional_forward_layer_counterexample :
  match Bidirectional.__init__ 1 (PyStr "concat") None ∅
          (Examples.store Examples.lstm) with
  | Ok (self, h') =>
      Bidirectional.forward_layer self = 1%positive
      ∧ is_Some (Examples.store Examples.lstm !! Bidirectional.forward_layer self)
      ∧ h' !! 1%positive ≠ Examples.store Examples.lstm !! 1%positive
  | Raise _ => False
  end.
Proof.
  vm_compute. split_and!; [reflexivity|eauto|discriminate].
Qed.

(** ** The weight list of Bidirectional *)

Lemma half_split {A} (ws : list A) :
  length (take (length ws / 2) ws) = (length ws / 2)%nat
  ∧ length (drop (length ws / 2) ws) = (length ws - length ws / 2)%nat
  ∧ take (length ws / 2) ws ++ drop (length ws / 2) ws = ws.
Proof.
  assert (length ws / 2 ≤ length ws)%nat as Hhalf
    by (apply Nat.Div0.div_le_upper_bound; lia).
  rewrite length_take, length_drop, take_drop. split_and!; [lia|done|done].
Qed.

(** A layer that holds as many weights as it is given takes them over, in
    order. *)
Lemma Layer_set_weights_ok (ws : list tensor) (l : Layer.t) :
  length (Layer.get_weights l) = length ws →
  ∃ l', Layer.set_weights ws l = Ok l'
        ∧ Layer.get_weights l' = ws
        ∧ Layer.name l' = Layer.name l.
Proof.
  unfold Layer.get_weights, Layer.set_weights. rewrite length_app. intros Hlen.
  rewrite decide_True by done. eexists. split; [done|]. simpl.
  by rewrite take_drop.
Qed.

Lemma Layer_set_weights_mismatch (ws : list tensor) (l : Layer.t) :
  length (Layer.get_weights l) ≠ length ws →
  ∃ msg, Layer.set_weights ws l = Raise (ShapeMismatch msg).
Proof.
  unfold Layer.get_weights, Layer.set_weights. rewrite length_app. intros Hlen.
  rewrite decide_False by done. eauto.
Qed.

(** C5.  An explicit weight list of length N is cut at N // 2: the first
    N // 2 tensors go to the forward layer and the other N - N // 2 to the
    backward layer, in the order of the list, both when the list is given
    to the constructor (where it becomes the initial weights of the two
    layers) and when it is given to [set_weights] (where two layers that
    hold N // 2 and N - N // 2 weights take the two parts over). *)
Theorem Bidirectional_weights_split (weights : list tensor) :
  let nw := length weights in
  let first_half := take (nw / 2) weights in
  let second_half := drop (nw / 2) weights in
  (length first_half = (nw / 2)%nat
   ∧ length second_half = (nw - nw / 2)%nat
   ∧ first_half ++ second_half = weights)
  ∧ (∀ (layer : loc) (merge_mode : pyval) (kwargs : gmap string pyval)
       (h : heap) (l : Layer.t) (go_backwards stateful return_sequences : pyval),
       merge_mode ∈ [PyStr "sum"; PyStr "mul"; PyStr "ave"; PyStr "concat"; PyNone] →
       h !! layer = Some l →
       Layer.config l !! "go_backwards" = Some go_backwards →
       Layer.config l !! "stateful" = Some stateful →
       Layer.config l !! "return_sequences" = Some return_sequences →
       ∃ self h' f b,
         Bidirectional.__init__ layer merge_mode (Some weights) kwargs h
         = Ok (self, h')
         ∧ h' !! Bidirectional.forward_layer self = Some f
         ∧ h' !! Bidirectional.backward_layer self = Some b
         ∧ (weights ≠ [] →
            Layer.initial_weights f = Some first_half
            ∧ Layer.initial_weights b = Some second_half)
         ∧ (weights = [] →
            Layer.initial_weights f = Layer.initial_weights l
            ∧ Layer.initial_weights b = None))
  ∧ (∀ (self : Bidirectional.t) (h : heap) (f b : Layer.t),
       Bidirectional.forward_layer self ≠ Bidirectional.backward_layer self →
       h !! Bidirectional.forward_layer self = Some f →
       h !! Bidirectional.backward_layer self = Some b →
       length (Layer.get_weights f) = (nw / 2)%nat →
       length (Layer.get_weights b) = (nw - nw / 2)%nat →
       ∃ h' f' b',
         Bidirectional.set_weights self weights h = Ok (tt, h')
         ∧ h' !! Bidirectional.forward_layer self = Some f'
         ∧ h' !! Bidirectional.backward_layer self = Some b'
         ∧ Layer.get_weights f' = first_half
         ∧ Layer.get_weights b' = second_half
         ∧ Bidirectional.get_weights self h' = Ok (weights, h')).
Proof.
  cbv zeta.
  destruct (half_split weights) as (Hfirst & Hsecond & Hjoin).
  split; [done|]. split.
  - intros layer merge_mode kwargs h l gb st rs Hmode%merge_mode_allowed_iff
      Hlayer Hgb Hst Hrs.
    pose proof (fresh_ne h layer l Hlayer) as Hfresh.
    eexists _, _, _, _. split.
    { exact (Bidirectional_init_ok layer merge_mode (Some weights) kwargs h l
               gb st rs Hmode Hlayer Hgb Hst Hrs). }
    cbn [Bidirectional.forward_layer Bidirectional.backward_layer].
    split_and!.
    + rewrite lookup_insert_ne by done. by rewrite lookup_insert_eq.
    + apply lookup_insert_eq.
    + intros Hne. by destruct weights.
    + by intros ->.
  - intros self h f b Hdistinct Hf Hb Hlenf Hlenb.
    destruct (Layer_set_weights_ok (take (length weights / 2) weights) f)
      as (f' & Hsetf & Hgetf & _); [by rewrite Hlenf, Hfirst|].
    destruct (Layer_set_weights_ok (drop (length weights / 2) weights) b)
      as (b' & Hsetb & Hgetb & _); [by rewrite Hlenb, Hsecond|].
    exists (<[Bidirectional.backward_layer self := b']>
              (<[Bidirectional.forward_layer self := f']> h)), f', b'.
    assert (<[Bidirectional.backward_layer self := b']>
              (<[Bidirectional.forward_layer self := f']> h)
            !! Bidirectional.forward_layer self = Some f') as Hf'.
    { rewrite lookup_insert_ne by done. apply lookup_insert_eq. }
    assert (<[Bidirectional.backward_layer self := b']>
              (<[Bidirectional.forward_layer self := f']> h)
            !! Bidirectional.backward_layer self = Some b') as Hb'
      by apply lookup_insert_eq.
    split_and!; try done.
    + unfold Bidirectional.set_weights.
      erewrite bind_ok; [|by apply (update_with_ok _ _ _ f f')].
      apply (update_with_ok _ _ _ b b'); [|done].
      by rewrite lookup_insert_ne.
    + unfold Bidirectional.get_weights.
      rewrite (bind_ok _ _ _ _ _ (deref_ok _ _ _ Hf')).
      rewrite (bind_ok _ _ _ _ _ (deref_ok _ _ _ Hb')).
      rewrite Hgetf, Hgetb. by rewrite take_drop.
Qed.

(** The list [w1, w2, w3] is cut into [w1] and [w2, w3]. *)
Lemma Bidirectional_weights_split_witness :
  (∃ self h' f b,
     Bidirectional.__init__ 1 (PyStr "concat")
       (Some [Scalar 1; Scalar 2; Scalar 3]) ∅ (Examples.store Examples.lstm)
     = Ok (self, h')
     ∧ h' !! Bidirectional.forward_layer self = Some f
     ∧ h' !! Bidirectional.backward_layer self = Some b
     ∧ ([Scalar 1; Scalar 2; Scalar 3] ≠ [] →
        Layer.initial_weights f = Some [Scalar 1]
        ∧ Layer.initial_weights b = Some [Scalar 2; Scalar 3])
     ∧ ([Scalar 1; Scalar 2; Scalar 3] = [] →
        Layer.initial_weights f = Layer.initial_weights Examples.lstm
        ∧ Layer.initial_weights b = None))
  ∧ (∃ h' f' b',
       Bidirectional.set_weights (Examples.bidirectional (PyStr "concat") true)
         [Scalar 1; Scalar 2; Scalar 3] Examples.pair_store
       = Ok (tt, h')
       ∧ h' !! 1%positive = Some f'
       ∧ h' !! 2%positive = Some b'
       ∧ Layer.get_weights f' = [Scalar 1]
       ∧ Layer.get_weights b' = [Scalar 2; Scalar 3]
       ∧ Bidirectional.get_weights (Examples.bidirectional (PyStr "concat") true) h'
         = Ok ([Scalar 1; Scalar 2; Scalar 3], h')).
Proof.
  destruct (Bidirectional_weights_split [Scalar 1; Scalar 2; Scalar 3])
    as (_ & Hinit & Hset).
  split.
  - apply (Hinit 1%positive (PyStr "concat") ∅ (Examples.store Examples.lstm)
             Examples.lstm (PyBool false) (PyBool false) (PyBool false)).
    + set_solver.
    + reflexivity.
    + reflexivity.
    + reflexivity.
    + reflexivity.
  - eapply (Hset (Examples.bidirectional (PyStr "concat") true) Examples.pair_store).
    + discriminate.
    + reflexivity.
    + reflexivity.
    + reflexivity.
    + reflexivity.
Defined.

(** ** call of Bidirectional *)

(** C7.  [call] hands the same input and mask to the forward and to the
    backward layer; the output of the backward layer is reversed along
    axis 1 if the wrapper returns sequences and is left as it is otherwise;
    the two outputs are then concatenated (along the last axis, the default
    of the backend) for 'concat', added for 'sum', added and divided by two
    for 'ave', multiplied for 'mul', and returned as the list of the two for
    [None].  The store is left as it was. *)
Theorem Bidirectional_call_spec {T} `{Backend T} `{Layer.Call T}
    (self : Bidirectional.t) (h : heap) (f b : Layer.t) (X : T) (mask : option T) :
  h !! Bidirectional.forward_layer self = Some f →
  h !! Bidirectional.backward_layer self = Some b →
  ∃ Y Y_rev : T,
    Y = Layer.call f X mask
    ∧ (truthy (Bidirectional.return_sequences self) = true →
       Y_rev = K_reverse (Layer.call b X mask) 1)
    ∧ (truthy (Bidirectional.return_sequences self) = false →
       Y_rev = Layer.call b X mask)
    ∧ (Bidirectional.merge_mode self = PyStr "concat" →
       Bidirectional.call self X mask h = Ok (OutTensor (K_concatenate [Y; Y_rev]), h))
    ∧ (Bidirectional.merge_mode self = PyStr "sum" →
       Bidirectional.call self X mask h = Ok (OutTensor (tensor_add Y Y_rev), h))
    ∧ (Bidirectional.merge_mode self = PyStr "ave" →
       Bidirectional.call self X mask h
       = Ok (OutTensor (tensor_div (tensor_add Y Y_rev) 2), h))
    ∧ (Bidirectional.merge_mode self = PyStr "mul" →
       Bidirectional.call self X mask h = Ok (OutTensor (tensor_mul Y Y_rev), h))
    ∧ (Bidirectional.merge_mode self = PyNone →
       Bidirectional.call self X mask h = Ok (OutList [Y; Y_rev], h)).
Proof.
  intros Hf Hb.
  exists (Layer.call f X mask),
         (if truthy (Bidirectional.return_sequences self)
          then K_reverse (Layer.call b X mask) 1 else Layer.call b X mask).
  split; [done|]. split; [by intros ->|]. split; [by intros ->|].
  unfold Bidirectional.call.
  rewrite (bind_ok _ _ _ _ _ (deref_ok _ _ _ Hf)).
  rewrite (bind_ok _ _ _ _ _ (deref_ok _ _ _ Hb)).
  split_and!; by intros ->.
Qed.

(** Two steps of three features through the echoing layers: the backward
    layer emits the steps last to first, the wrapper puts them back in
    order, and 'sum' doubles every entry. *)
Lemma Bidirectional_call_witness :
  Bidirectional.call (Examples.bidirectional (PyStr "sum") true)
    (Tensor [Tensor [Tensor [Scalar 1; Scalar 2; Scalar 3];
                     Tensor [Scalar 4; Scalar 5; Scalar 6]]])
    None Examples.pair_store
  = Ok (OutTensor (Tensor [Tensor [Tensor [Scalar 2; Scalar 4; Scalar 6];
                                   Tensor [Scalar 8; Scalar 10; Scalar 12]]]),
        Examples.pair_store).
Proof.
  destruct (Bidirectional_call_spec (Examples.bidirectional (PyStr "sum") true)
              Examples.pair_store
              (Examples.holding [Scalar 0] false
                 (Examples.recurrent "forward_lstm_1" 3 true))
              (Examples.holding [Scalar 0; Scalar 0] true
                 (Examples.recurrent "backward_lstm_1" 3 true))
              (Tensor [Tensor [Tensor [Scalar 1; Scalar 2; Scalar 3];
                               Tensor [Scalar 4; Scalar 5; Scalar 6]]])
              None eq_refl eq_refl)
    as (Y & Y_rev & HY & Hrev & _ & _ & Hsum & _).
  rewrite (Hsum eq_refl), HY, (Hrev eq_refl). reflexivity.
Defined.

(** ** get_output of TimeDistributed *)

(** C9.  [get_output] never gets to its test of the sequence length: its
    first statement looks up [get_input], which the wrapper does not have,
    so the call raises [AttributeError] for every backend, wrapper and
    store.  In particular, under TensorFlow and with a declared shape
    whose sequence length is unknown, the error that comes out is not the
    one that asks for the number of timesteps to be defined. *)
Theorem TimeDistributed_get_output_raises `{Layer.Methods} :
  (∀ (K_BACKEND : string) (self : TimeDistributed.t) (train : bool) (h : heap),
     TimeDistributed.get_output K_BACKEND self train h
     = Raise (AttributeError "get_input"))
  ∧ TimeDistributed.get_output "tensorflow"
      (Examples.time_distributed [[None; None; Some 16]]) false
      (Examples.store (Examples.dense "dense_1" 8))
    ≠ Raise (Exception TimeDistributed.timesteps_message)
  ∧ contains "define explicitly the number of timesteps"
      TimeDistributed.timesteps_message = true.
Proof. split_and!; [reflexivity|discriminate|reflexivity]. Qed.

(** ** compute_mask of TimeDistributed *)

Lemma py_any_all_None {T} `{TensorTruth T} (ms : list (option T)) :
  Forall (λ m, m = None) ms → py_any ms = Ok false.
Proof. induction 1 as [|m ms -> _ IH]; [done|]. simpl. exact IH. Qed.

Lemma omap_id_all_None {T} (ms : list (option T)) :
  Forall (λ m, m = None) ms → omap id ms = [].
Proof. induction 1 as [|m ms -> _ IH]; [done|]. simpl. exact IH. Qed.

(** A list whose first mask is true for [any]. *)
Lemma py_any_first_true {T} `{TensorTruth T} (ms : list (option T)) (m : T)
    (rest : list T) :
  omap id ms = m :: rest → truth_value m = Ok true → py_any ms = Ok true.
Proof.
  induction ms as [|[x|] ms IH]; simpl; [done| |done].
  intros [= -> _] Htrue. by rewrite Htrue.
Qed.

(** What [compute_mask] does in each of its branches: one mask is handed
    back as it is; a list without a mask gives no mask; a list with exactly
    one mask, which is true for [any], gives that mask; a list of two or
    more masks, the first of which is true for [any], goes as a whole,
    absent entries included, to [K.concatenate] and the result is
    multiplied out along axis 0. *)
Lemma TimeDistributed_compute_mask_cases {T} `{Backend T} `{TensorTruth T}
    (self : TimeDistributed.t) (input : T) :
  (∀ m : option T, TimeDistributed.compute_mask self input (Mask m) = Ok m)
  ∧ (∀ ms : list (option T), Forall (λ m, m = None) ms →
       TimeDistributed.compute_mask self input (MaskList ms) = Ok None)
  ∧ (∀ (ms : list (option T)) (m : T), omap id ms = [m] →
       truth_value m = Ok true →
       TimeDistributed.compute_mask self input (MaskList ms) = Ok (Some m))
  ∧ (∀ (ms : list (option T)) (m m' : T) (rest : list T),
       omap id ms = m :: m' :: rest →
       truth_value m = Ok true →
       TimeDistributed.compute_mask self input (MaskList ms)
       = (input_mask ← K_concatenate_objects ms;
          mret (Some (K_prod input_mask 0)))).
Proof.
  unfold TimeDistributed.compute_mask. split_and!.
  - done.
  - intros ms Hnone. by rewrite (py_any_all_None ms Hnone).
  - intros ms m Hone Htrue.
    rewrite (py_any_first_true ms m [] Hone Htrue). simpl.
    rewrite Hone. done.
  - intros ms m m' rest Htwo Htrue.
    rewrite (py_any_first_true ms m (m' :: rest) Htwo Htrue). simpl.
    rewrite Htwo. done.
Qed.

(** C6, the case of two masks.  For two masks of shape (2, 2) the code
    concatenates them along the last axis into shape (2, 4) and multiplies
    the two rows, which gives a vector of 4 entries that mixes the samples
    of the batch.  The elementwise AND of the two masks, which is what
    stacking them and multiplying along the new axis gives, keeps the shape
    (2, 2) and is another tensor. *)
Theorem TimeDistributed_compute_mask_two_masks :
  TimeDistributed.compute_mask (Examples.time_distributed [])
    Examples.mask1 (MaskList [Some Examples.mask1; Some Examples.mask2])
  = Ok (Some (Tensor [Scalar 1; Scalar 0; Scalar 0; Scalar 1]))
  ∧ stack_and_multiply [Examples.mask1; Examples.mask2]
    = Tensor [Tensor [Scalar 1; Scalar 0]; Tensor [Scalar 0; Scalar 1]]
  ∧ logical_and Examples.mask1 Examples.mask2
    = stack_and_multiply [Examples.mask1; Examples.mask2]
  ∧ ZTensor.shape (Tensor [Scalar 1; Scalar 0; Scalar 0; Scalar 1]) = [4%nat]
  ∧ ZTensor.shape (stack_and_multiply [Examples.mask1; Examples.mask2])
    = [2%nat; 2%nat].
Proof. split_and!; reflexivity. Qed.

(** The masks that are absent are not filtered out before the
    concatenation: a list with an absent entry and two masks is handed to
    the backend as it is, which has no tensor for [None]. *)
Remark TimeDistributed_compute_mask_absent_entry :
  ∃ msg,
    TimeDistributed.compute_mask (Examples.time_distributed [])
      Examples.mask1 (MaskList [None; Some Examples.mask1; Some Examples.mask2])
    = Raise (TypeError msg).
Proof. eexists. reflexivity. Qed.

(** ** Serialisation round trip *)

(** An inner layer goes through its serialised form unchanged. *)
Lemma Layer_config_round_trip (l : Layer.t) :
  Layer.get_config (Layer.from_config (Layer.class_name l) (Layer.get_config l))
  = Layer.get_config l
  ∧ Layer.name (Layer.from_config (Layer.class_name l) (Layer.get_config l))
    = Layer.name l
  ∧ Layer.config (Layer.from_config (Layer.class_name l) (Layer.get_config l))
    = delete "name" (Layer.config l).
Proof.
  unfold Layer.from_config, Layer.get_config. simpl.
  rewrite lookup_insert_eq, delete_insert_eq, insert_delete_eq. done.
Qed.

(** The first two lines of [from_config] undo what [Wrapper.get_config]
    nests under the key 'layer'. *)
Lemma Wrapper_from_config_layer_ok (l : Layer.t) (rest : gmap string pyval)
    (h : heap) :
  Wrapper.from_config_layer
    (<["layer" := PyDict (<["class_name" := PyStr (Layer.class_name l)]>
                            {[ "config" := PyDict (Layer.get_config l) ]})]> rest) h
  = Ok ((fresh (dom h), delete "layer" rest),
        <[fresh (dom h) :=
            Layer.from_config (Layer.class_name l) (Layer.get_config l)]> h).
Proof.
  unfold Wrapper.from_config_layer.
  rewrite (dict_getitem_ok _ "layer" _ (lookup_insert_eq _ _ _)), bind_lift_ok.
  unfold layer_from_config.
  rewrite (dict_getitem_ok _ "class_name" _ (lookup_insert_eq _ _ _)).
  erewrite (dict_getitem_ok _ "config"); last first.
  { rewrite lookup_insert_ne by done. apply lookup_singleton_eq. }
  cbn [mbind result_bind]. rewrite bind_lift_ok.
  rewrite (bind_ok _ _ _ _ _ (alloc_ok _ _)).
  by rewrite delete_insert_eq.
Qed.

(** For [TimeDistributed] the round trip works: the wrapper read back has
    an inner layer of the same class and configuration, and the same
    keyword arguments. *)
Lemma TimeDistributed_config_round_trip (self : TimeDistributed.t) (h : heap)
    (l : Layer.t) :
  h !! TimeDistributed.layer self = Some l →
  ∃ config self' h' l',
    TimeDistributed.get_config self h = Ok (config, h)
    ∧ TimeDistributed.from_config config h = Ok (self', h')
    ∧ h' !! TimeDistributed.layer self' = Some l'
    ∧ Layer.class_name l' = Layer.class_name l
    ∧ Layer.get_config l' = Layer.get_config l
    ∧ Wrapper.kwargs (TimeDistributed.base self')
      = delete "layer" (Wrapper.kwargs (TimeDistributed.base self)).
Proof.
  intros Hl.
  eexists _, _, _, _. split.
  { unfold TimeDistributed.get_config, Wrapper.get_config.
    rewrite (bind_ok _ _ _ _ _ (deref_ok _ _ _ Hl)).
    rewrite <- insert_union_singleton_l. reflexivity. }
  split.
  { unfold TimeDistributed.from_config.
    rewrite (bind_ok _ _ _ _ _ (Wrapper_from_config_layer_ok _ _ _)).
    unfold TimeDistributed.__init__, Wrapper.__init__.
    rewrite (bind_ok _ _ _ _ _
               (bind_ok _ _ _ _ _ (deref_ok _ _ _ (lookup_insert_eq _ _ _)))).
    reflexivity. }
  cbn [TimeDistributed.layer TimeDistributed.base Wrapper.layer Wrapper.kwargs].
  destruct (Layer_config_round_trip l) as (Hcfg & _ & _).
  split_and!; [apply lookup_insert_eq|done|done|done].
Qed.

Lemma string_length_app (s1 s2 : string) :
  String.length (s1 +:+ s2) = (String.length s1 + String.length s2)%nat.
Proof. induction s1 as [|c s1 IH]; simpl; [done|]. by rewrite IH. Qed.

Lemma forward_prefix_ne (s : string) : "forward_" +:+ s ≠ s.
Proof.
  intros Heq. apply (f_equal String.length) in Heq.
  rewrite string_length_app in Heq. simpl in Heq. lia.
Qed.

(** For [Bidirectional] the merge mode comes back, but the inner layer does
    not: the constructor that [from_config] calls renames the layer it is
    given, so the inner layer of the wrapper read back carries the prefix
    'forward_' once more than the inner layer of the wrapper written out.
    Everything else in its configuration is as before. *)
Lemma Bidirectional_config_round_trip (self : Bidirectional.t) (h : heap)
    (l : Layer.t) (go_backwards stateful return_sequences : pyval) :
  Bidirectional.merge_mode_allowed (Bidirectional.merge_mode self) = true →
  h !! Wrapper.layer (Bidirectional.base self) = Some l →
  Layer.config l !! "go_backwards" = Some go_backwards →
  Layer.config l !! "stateful" = Some stateful →
  Layer.config l !! "return_sequences" = Some return_sequences →
  Wrapper.kwargs (Bidirectional.base self) !! "weights" = None →
  ∃ config self' h' l',
    Bidirectional.get_config self h = Ok (config, h)
    ∧ Bidirectional.from_config config h = Ok (self', h')
    ∧ Bidirectional.merge_mode self' = Bidirectional.merge_mode self
    ∧ h' !! Wrapper.layer (Bidirectional.base self') = Some l'
    ∧ Layer.class_name l' = Layer.class_name l
    ∧ Layer.get_config l'
      = <["name" := PyStr ("forward_" +:+ Layer.name l)]> (Layer.get_config l)
    ∧ Layer.get_config l' ≠ Layer.get_config l.
Proof.
  intros Hmode Hl Hgb Hst Hrs Hweights.
  destruct (Layer_config_round_trip l) as (_ & Hname & Hconfig).
  set (l1 := Layer.from_config (Layer.class_name l) (Layer.get_config l)) in *.
  set (r := fresh (dom h)).
  set (h1 := <[r := l1]> h).
  assert (h1 !! r = Some l1) as Hr by apply lookup_insert_eq.
  pose proof (Bidirectional_init_ok r (Bidirectional.merge_mode self) None
    (delete "merge_mode" (delete "weights" (delete "layer"
       (<["merge_mode" := Bidirectional.merge_mode self]>
          (Wrapper.kwargs (Bidirectional.base self))))))
    h1 l1 go_backwards stateful return_sequences Hmode Hr) as Hinit.
  assert (∀ k v, k ≠ "name" → Layer.config l !! k = Some v →
                 Layer.config l1 !! k = Some v) as Hkeep.
  { intros k v Hk Hv. rewrite Hconfig. by rewrite lookup_delete_ne. }
  specialize (Hinit (Hkeep "go_backwards" _ ltac:(done) Hgb)
                    (Hkeep "stateful" _ ltac:(done) Hst)
                    (Hkeep "return_sequences" _ ltac:(done) Hrs)).
  pose proof (fresh_ne h1 r l1 Hr) as Hne.
  eexists _, _, _, _. split.
  { unfold Bidirectional.get_config, Wrapper.get_config.
    rewrite (bind_ok _ _ _ _ _ (bind_ok _ _ _ _ _ (deref_ok _ _ _ Hl))).
    rewrite <- !insert_union_singleton_l.
    rewrite (insert_insert_ne _ "merge_mode" "layer") by done. reflexivity. }
  split.
  { unfold Bidirectional.from_config.
    rewrite (bind_ok _ _ _ _ _ (Wrapper_from_config_layer_ok _ _ _)).
    rewrite (lookup_delete_ne _ "layer" "weights") by done.
    rewrite (lookup_insert_ne _ "merge_mode" "weights") by done.
    rewrite Hweights. cbn [Bidirectional.bind_weights]. rewrite bind_lift_ok.
    rewrite (lookup_delete_ne _ "layer" "merge_mode") by done.
    rewrite lookup_insert_eq. cbn [default]. exact Hinit. }
  cbn [Bidirectional.merge_mode Bidirectional.base Wrapper.layer].
  assert (Layer.get_config
            (Layer.mk (Layer.class_name l1) ("forward_" +:+ Layer.name l1)
               (Layer.config l1) (Layer.uses_learning_phase l1)
               (Layer.initial_weights l1) (Layer.trainable_weights l1)
               (Layer.non_trainable_weights l1) (Layer.updates l1)
               (Layer.losses l1) (Layer.constraints l1) (Layer.built l1))
          = <["name" := PyStr ("forward_" +:+ Layer.name l)]> (Layer.get_config l))
    as Hrenamed.
  { unfold Layer.get_config. cbn [Layer.name Layer.config].
    rewrite Hname, Hconfig, insert_delete_eq, insert_insert_eq. done. }
  split_and!.
  - reflexivity.
  - rewrite lookup_insert_ne by done. apply lookup_insert_eq.
  - reflexivity.
  - exact Hrenamed.
  - rewrite Hrenamed. intros Heq.
    apply (f_equal (λ m : gmap string pyval, m !! "name")) in Heq.
    unfold Layer.get_config in Heq. rewrite !lookup_insert_eq in Heq.
    injection Heq as Heq. by apply forward_prefix_ne in Heq.
Qed.

(** C3, at a wrapper around a layer named lstm_1.  The wrapper is built,
    written out with [get_config] and read back with [from_config].  The
    merge mode comes back, and so does every entry of the inner layer's
    configuration but one: the inner layer of the original wrapper is named
    forward_lstm_1, that of the wrapper read back forward_forward_lstm_1,
    so the two configurations are not equal. *)
Theorem Bidirectional_config_round_trip_renames :
  match (self ← Bidirectional.__init__ 1 (PyStr "sum") None ∅;
         config ← Bidirectional.get_config self;
         self' ← Bidirectional.from_config config;
         l ← deref (Wrapper.layer (Bidirectional.base self));
         l' ← deref (Wrapper.layer (Bidirectional.base self'));
         mret (self, self', l, l')) (Examples.store Examples.lstm) with
  | Ok ((self, self', l, l'), _) =>
      Bidirectional.merge_mode self' = Bidirectional.merge_mode self
      ∧ Layer.get_config l !! "name" = Some (PyStr "forward_lstm_1")
      ∧ Layer.get_config l' !! "name" = Some (PyStr "forward_forward_lstm_1")
      ∧ Layer.get_config l' ≠ Layer.get_config l
      ∧ delete "name" (Layer.get_config l') = delete "name" (Layer.get_config l)
  | Raise _ => False
  end.
Proof.
  vm_compute. split_and!; try reflexivity.
  intros Heq. discriminate Heq.
Qed.

(** * Further properties *)

(** ** Methods that only read the store *)

Section read_only.
Context {A B : Type}.

Lemma read_only_bind (m : M A) (f : A → M B) :
  read_only m → (∀ a, read_only (f a)) → read_only (m ≫= f).
Proof.
  intros Hm Hf h b h'' (a & h' & Hma & Hfa)%bind_inv_ok.
  apply Hm in Hma as ->. by apply Hf in Hfa.
Qed.

Lemma read_only_ret (a : A) : read_only (mret a : M A).
Proof. intros h a' h' [= _ ->]. done. Qed.

Lemma read_only_lift (r : result A) : read_only (lift r).
Proof. intros h a h'. unfold lift. destruct r; [by intros [= _ ->]|done]. Qed.
End read_only.

Lemma read_only_deref r : read_only (deref r).
Proof.
  intros h a h'. unfold deref. destruct (h !! r); [by intros [= _ ->]|done].
Qed.

Create HintDb read_only.

#[local] Hint Resolve read_only_ret read_only_lift read_only_deref : read_only.

Ltac read_only :=
  repeat first
    [ apply read_only_bind; [|intros ?]
    | solve [eauto with read_only]
    | match goal with |- read_only (if ?c then _ else _) => destruct c end
    | match goal with |- read_only (let '(_, _) := ?p in _) => destruct p end ].

(** X1.  Shape inference, [get_weights], [get_config] and the collection
    properties only read the layer objects: whenever one of them returns,
    the store is the one it was given. *)
Theorem wrappers_read_only `{Layer.Methods} :
  (∀ self s, read_only (TimeDistributed.get_output_shape_for self s))
  ∧ (∀ self, read_only (TimeDistributed.get_config self))
  ∧ (∀ self, read_only (Wrapper.get_weights self))
  ∧ (∀ self s, read_only (Bidirectional.get_output_shape_for self s))
  ∧ (∀ self, read_only (Bidirectional.get_weights self))
  ∧ (∀ self, read_only (Bidirectional.get_config self))
  ∧ (∀ self, read_only (Bidirectional.trainable_weights self))
  ∧ (∀ self, read_only (Bidirectional.non_trainable_weights self))
  ∧ (∀ self, read_only (Bidirectional.updates self))
  ∧ (∀ self, read_only (Bidirectional.losses self))
  ∧ (∀ self, read_only (Bidirectional.constraints self)).
Proof.
  split_and!; intros;
    unfold TimeDistributed.get_output_shape_for, TimeDistributed.get_config,
      Wrapper.get_weights, Wrapper.get_config,
      Bidirectional.get_output_shape_for,
      Bidirectional.get_weights, Bidirectional.get_config, Wrapper.get_config,
      Bidirectional.trainable_weights, Bidirectional.non_trainable_weights,
      Bidirectional.updates, Bidirectional.losses, Bidirectional.constraints;
    read_only.
Qed.

(** ** Shape inference on degenerate arguments *)

Lemma mapM_result_raise {A B} (f : A → result B) (e : exn) (xs : list A) :
  Exists (λ x, f x = Raise e) xs →
  Forall (λ x, f x = Raise e ∨ ∃ y, f x = Ok y) xs →
  mapM f xs = Raise e.
Proof.
  induction xs as [|x xs IH]; intros Hex Hall; [by apply Exists_nil in Hex|].
  apply Forall_cons in Hall as [Hx Hall]. simpl.
  destruct Hx as [Hx|(y & Hx)]; rewrite Hx; [done|]. simpl.
  apply Exists_cons in Hex as [Hex|Hex]; [congruence|].
  by rewrite IH.
Qed.

(** X2.  [TimeDistributed.get_output_shape_for] on arguments without a
    time axis: an empty list of shapes makes [max] raise a [ValueError], a
    shape of rank below 2 makes the indexing raise an [IndexError], alone
    or in a list. *)
Theorem TimeDistributed_get_output_shape_for_degenerate `{Layer.Methods}
    (self : TimeDistributed.t) (h : heap) :
  (∃ msg, TimeDistributed.get_output_shape_for self (ShapeList []) h
          = Raise (ValueError msg))
  ∧ (∀ s : Shape, (length s < 2)%nat →
       ∃ msg, TimeDistributed.get_output_shape_for self (Tuple s) h
              = Raise (IndexError msg))
  ∧ (∀ ss : list Shape, Exists (λ s : Shape, (length s < 2)%nat) ss →
       ∃ msg, TimeDistributed.get_output_shape_for self (ShapeList ss) h
              = Raise (IndexError msg)).
Proof.
  unfold TimeDistributed.get_output_shape_for. split_and!.
  - eexists. reflexivity.
  - intros [|b [|t s]] Hlen; simpl in Hlen; try lia; eexists; reflexivity.
  - intros ss Hshort. exists "index out of range".
    assert (mapM (λ shape : Shape, getitem shape 1) ss
            = Raise (IndexError "index out of range")) as Hts.
    { apply mapM_result_raise.
      - eapply Exists_impl; [exact Hshort|]. intros [|b [|t s]] Hs;
          simpl in Hs; try lia; reflexivity.
      - apply Forall_forall. intros [|b [|t s]] _; [by left|by left|].
        right. by eexists. }
    cbn -[mapM]. rewrite Hts. reflexivity.
Qed.

Lemma TimeDistributed_get_output_shape_for_degenerate_witness :
  (∃ msg, TimeDistributed.get_output_shape_for (Examples.time_distributed [])
            (Tuple [Some 32]) (Examples.store (Examples.dense "dense_1" 8))
          = Raise (IndexError msg))
  ∧ (∃ msg, TimeDistributed.get_output_shape_for (Examples.time_distributed [])
              (ShapeList [[Some 32; Some 10; Some 16]; [Some 32]])
              (Examples.store (Examples.dense "dense_1" 8))
            = Raise (IndexError msg)).
Proof.
  destruct (TimeDistributed_get_output_shape_for_degenerate
              (Examples.time_distributed [])
              (Examples.store (Examples.dense "dense_1" 8)))
    as (_ & Hone & Hlist).
  split.
  - apply Hone. simpl. lia.
  - apply Hlist. apply Exists_cons_tl, Exists_cons_hd. simpl. lia.
Defined.

(** X3.  [Bidirectional.get_output_shape_for] with merge mode 'concat'
    needs a last axis of known size: when the forward layer infers a shape
    whose last size is unknown the doubling raises a [TypeError], and when
    it infers the empty shape the indexing raises an [IndexError]. *)
Theorem Bidirectional_get_output_shape_for_concat_errors `{Layer.Methods}
    (self : Bidirectional.t) (h : heap) (f : Layer.t) (s : ShapeArg) :
  Bidirectional.merge_mode self = PyStr "concat" →
  h !! Bidirectional.forward_layer self = Some f →
  (∀ pre : Shape, Layer.get_output_shape_for f s = pre ++ [None] →
     ∃ msg, Bidirectional.get_output_shape_for self s h = Raise (TypeError msg))
  ∧ (Layer.get_output_shape_for f s = [] →
     ∃ msg, Bidirectional.get_output_shape_for self s h = Raise (IndexError msg)).
Proof.
  intros Hmode Hf. unfold Bidirectional.get_output_shape_for.
  rewrite Hmode. simpl.
  rewrite (bind_ok _ _ _ _ _ (deref_ok _ _ _ Hf)).
  split.
  - intros pre ->. destruct (double_last_unknown pre) as (msg & ->).
    exists msg. reflexivity.
  - intros ->. eexists. reflexivity.
Qed.

(** A dense layer given no number of units infers an unknown last size. *)
Lemma Bidirectional_get_output_shape_for_concat_errors_witness :
  ∃ msg,
    Bidirectional.get_output_shape_for (Examples.bidirectional (PyStr "concat") false)
      (Tuple [Some 32; Some 5; Some 10])
      (Examples.store (Layer.mk "Dense" "dense_1" ∅ false None [] [] [] [] ∅ false))
    = Raise (TypeError msg).
Proof.
  destruct (Bidirectional_get_output_shape_for_concat_errors
              (Examples.bidirectional (PyStr "concat") false)
              (Examples.store (Layer.mk "Dense" "dense_1" ∅ false None [] [] [] [] ∅ false))
              (Layer.mk "Dense" "dense_1" ∅ false None [] [] [] [] ∅ false)
              (Tuple [Some 32; Some 5; Some 10]) eq_refl eq_refl)
    as (Hunknown & _).
  exact (Hunknown [Some 32] eq_refl).
Defined.

(** ** build of TimeDistributed *)

(** The inner layer after [build_layer]: built with the child shape if it
    was not built, and left alone if it was. *)
Lemma TimeDistributed_build_layer_spec `{Layer.Methods} (self : TimeDistributed.t)
    (input_spec : list Shape) (child_input_shape : ShapeArg) (h : heap)
    (l : Layer.t) :
  h !! TimeDistributed.layer self = Some l →
  ∃ self' l',
    TimeDistributed.build_layer self input_spec child_input_shape h
    = Ok (self', if Layer.built l then h
                 else <[TimeDistributed.layer self := l']> h)
    ∧ l' = (if Layer.built l then l
            else Layer.set_built true (Layer.build child_input_shape l))
    ∧ TimeDistributed.input_spec self' = input_spec
    ∧ TimeDistributed.layer self' = TimeDistributed.layer self
    ∧ Wrapper.trainable_weights (TimeDistributed.base self')
      = Layer.trainable_weights l'
    ∧ Wrapper.non_trainable_weights (TimeDistributed.base self')
      = Layer.non_trainable_weights l'
    ∧ Wrapper.updates (TimeDistributed.base self') = Layer.updates l'
    ∧ Wrapper.losses (TimeDistributed.base self') = Layer.losses l'
    ∧ Wrapper.constraints (TimeDistributed.base self') = Layer.constraints l'.
Proof.
  intros Hl. unfold TimeDistributed.build_layer.
  rewrite (bind_ok _ _ _ _ _ (deref_ok _ _ _ Hl)).
  destruct (Layer.built l) eqn:Hbuilt.
  - rewrite bind_ret. unfold Wrapper.build.
    rewrite (bind_ok _ _ _ _ _ (bind_ok _ _ _ _ _ (deref_ok _ _ _ Hl))).
    eexists _, l. split; [reflexivity|]. by split_and!.
  - rewrite (bind_ok _ _ _ _ _ (update_ok _ _ _ _ Hl)).
    unfold Wrapper.build.
    assert (<[TimeDistributed.layer self :=
                Layer.set_built true (Layer.build child_input_shape l)]> h
            !! TimeDistributed.layer self
            = Some (Layer.set_built true (Layer.build child_input_shape l)))
      as Hl' by apply lookup_insert_eq.
    rewrite (bind_ok _ _ _ _ _ (bind_ok _ _ _ _ _ (deref_ok _ _ _ Hl'))).
    eexists _, _. split; [reflexivity|]. by split_and!.
Qed.

Lemma rank_check_ok (ss : list Shape) :
  Forall (λ s : Shape, (3 ≤ length s)%nat) ss →
  mapM (λ shape : Shape,
          if decide (3 ≤ length shape)%nat then Ok tt
          else Raise AssertionError) ss
  = Ok ((λ _, tt) <$> ss).
Proof.
  intros Hall. apply mapM_result_ok.
  eapply Forall_impl; [exact Hall|]. intros s Hs. simpl in Hs.
  by rewrite decide_True.
Qed.

Lemma rank_check_fails (ss : list Shape) :
  Exists (λ s : Shape, (length s < 3)%nat) ss →
  mapM (λ shape : Shape,
          if decide (3 ≤ length shape)%nat then Ok tt
          else Raise AssertionError) ss
  = Raise AssertionError.
Proof.
  intros Hex. apply mapM_result_raise.
  - eapply Exists_impl; [exact Hex|]. intros s Hs. simpl in Hs.
    rewrite decide_False by lia. done.
  - apply Forall_forall. intros s _. destruct (decide (3 ≤ length s)%nat); eauto.
Qed.

(** X4.  [TimeDistributed.build] accepts exactly the arguments all of whose
    shapes have rank 3 or more: a shorter shape, alone or in a list, fails
    the assertion.  When it accepts and the inner layer is in the store, it
    returns a wrapper whose input specification lists the shapes and whose
    collections are those of the inner layer; an inner layer that was
    already built is not built again and the store stays as it was, and an
    unbuilt one is built on the shapes without their time axis — the bare
    shape when there is exactly one, the list otherwise — and marked
    built. *)
Theorem TimeDistributed_build_spec `{Layer.Methods} (self : TimeDistributed.t)
    (input_shape : ShapeArg) (h : heap) :
  (Exists (λ s : Shape, (length s < 3)%nat) (shape_list input_shape) →
   TimeDistributed.build self input_shape h = Raise AssertionError)
  ∧ (∀ l : Layer.t,
       Forall (λ s : Shape, (3 ≤ length s)%nat) (shape_list input_shape) →
       h !! TimeDistributed.layer self = Some l →
       ∃ self' l',
         TimeDistributed.build self input_shape h
         = Ok (self', if Layer.built l then h
                      else <[TimeDistributed.layer self := l']> h)
         ∧ l' = (if Layer.built l then l
                 else Layer.set_built true
                        (Layer.build
                           (match shape_list input_shape with
                            | [s] => Tuple (delete 1%nat s)
                            | ss => ShapeList (delete 1%nat <$> ss)
                            end) l))
         ∧ TimeDistributed.input_spec self' = shape_list input_shape
         ∧ Wrapper.trainable_weights (TimeDistributed.base self')
           = Layer.trainable_weights l'
         ∧ Wrapper.non_trainable_weights (TimeDistributed.base self')
           = Layer.non_trainable_weights l').
Proof.
  unfold TimeDistributed.build. fold (shape_list input_shape).
  generalize (shape_list input_shape). intros ss. split.
  - intros Hshort. by rewrite (rank_check_fails ss Hshort).
  - intros l Hrank Hl. rewrite (rank_check_ok ss Hrank), bind_lift_ok.
    assert (mapM child_shape ss = Ok (delete 1%nat <$> ss)) as ->.
    { apply mapM_result_ok. eapply Forall_impl; [exact Hrank|].
      intros s Hs. apply child_shape_delete. simpl in Hs. lia. }
    rewrite bind_lift_ok.
    assert (match delete 1%nat <$> ss with
            | [s] => Tuple s
            | _ => ShapeList (delete 1%nat <$> ss)
            end
            = match ss with
              | [s] => Tuple (delete 1%nat s)
              | ss => ShapeList (delete 1%nat <$> ss)
              end) as -> by (by destruct ss as [|s [|s' ss]]).
    destruct (TimeDistributed_build_layer_spec self ss
                (match ss with
                 | [s] => Tuple (delete 1%nat s)
                 | ss => ShapeList (delete 1%nat <$> ss)
                 end) h l Hl)
      as (self' & l' & Hbuild & Hl' & Hspec & _ & Htw & Hntw & _).
    exists self', l'. split_and!; try done.
    rewrite Hl'. by destruct ss as [|? [|? ?]].
Qed.

(** An unbuilt dense layer is built on [(None, 16)] when the wrapper is
    built on [(None, 10, 16)], given as a shape or as a list of one. *)
Lemma TimeDistributed_build_spec_witness :
  ∃ self' l',
    TimeDistributed.build (Examples.time_distributed [])
      (ShapeList [[None; Some 10; Some 16]])
      (Examples.store (Examples.dense "dense_1" 8))
    = Ok (self', <[1%positive := l']> (Examples.store (Examples.dense "dense_1" 8)))
    ∧ l' = Layer.set_built true
             (Layer.build (Tuple [None; Some 16]) (Examples.dense "dense_1" 8))
    ∧ TimeDistributed.input_spec self' = [[None; Some 10; Some 16]]
    ∧ Wrapper.trainable_weights (TimeDistributed.base self')
      = Layer.trainable_weights l'
    ∧ Wrapper.non_trainable_weights (TimeDistributed.base self')
      = Layer.non_trainable_weights l'.
Proof.
  destruct (TimeDistributed_build_spec (Examples.time_distributed [])
              (ShapeList [[None; Some 10; Some 16]])
              (Examples.store (Examples.dense "dense_1" 8))) as (_ & Hbuild).
  apply (Hbuild (Examples.dense "dense_1" 8)).
  - repeat constructor.
  - reflexivity.
Defined.

(** ** Weights of Bidirectional *)

Lemma Layer_set_weights_own (l : Layer.t) :
  Layer.set_weights (Layer.get_weights l) l = Ok l.
Proof.
  unfold Layer.set_weights, Layer.get_weights. rewrite length_app.
  rewrite decide_True by done.
  rewrite take_app_length, drop_app_length. by destruct l.
Qed.

Lemma update_with_raise (r : loc) f (h : heap) l e :
  h !! r = Some l → f l = Raise e → update_with r f h = Raise e.
Proof. unfold update_with. by intros -> ->. Qed.

(** [set_weights] goes through exactly when the two layers hold N // 2
    and N - N // 2 weights. *)
Lemma Bidirectional_set_weights_iff (self : Bidirectional.t) (h : heap)
    (f b : Layer.t) (weights : list tensor) :
  Bidirectional.forward_layer self ≠ Bidirectional.backward_layer self →
  h !! Bidirectional.forward_layer self = Some f →
  h !! Bidirectional.backward_layer self = Some b →
  ((∃ h', Bidirectional.set_weights self weights h = Ok (tt, h'))
   ↔ length (Layer.get_weights f) = (length weights / 2)%nat
     ∧ length (Layer.get_weights b) = (length weights - length weights / 2)%nat)
  ∧ ((∃ msg, Bidirectional.set_weights self weights h = Raise (ShapeMismatch msg))
     ↔ ¬ (length (Layer.get_weights f) = (length weights / 2)%nat
          ∧ length (Layer.get_weights b)
            = (length weights - length weights / 2)%nat)).
Proof.
  intros Hne Hf Hb.
  destruct (half_split weights) as (Hfirst & Hsecond & _).
  unfold Bidirectional.set_weights.
  destruct (decide (length (Layer.get_weights f) = (length weights / 2)%nat))
    as [Hlenf|Hlenf].
  - destruct (Layer_set_weights_ok (take (length weights / 2) weights) f)
      as (f' & Hsetf & _); [by rewrite Hfirst|].
    rewrite (bind_ok _ _ _ _ _ (update_with_ok _ _ _ _ _ Hf Hsetf)).
    assert (<[Bidirectional.forward_layer self := f']> h
            !! Bidirectional.backward_layer self = Some b) as Hb'
      by (by rewrite lookup_insert_ne).
    destruct (decide (length (Layer.get_weights b)
                      = (length weights - length weights / 2)%nat))
      as [Hlenb|Hlenb].
    + destruct (Layer_set_weights_ok (drop (length weights / 2) weights) b)
        as (b' & Hsetb & _); [by rewrite Hsecond|].
      rewrite (update_with_ok _ _ _ _ _ Hb' Hsetb).
      split; split; [by intros _|intros _; eauto|by intros (msg & [=])|intros Hn; exfalso; by apply Hn].
    + destruct (Layer_set_weights_mismatch (drop (length weights / 2) weights) b)
        as (msg & Hsetb); [by rewrite Hsecond|].
      rewrite (update_with_raise _ _ _ _ _ Hb' Hsetb).
      split; split; [by intros (h' & [=])|by intros [? ?]|by intros _ [? ?]|intros _; eauto].
  - destruct (Layer_set_weights_mismatch (take (length weights / 2) weights) f)
      as (msg & Hsetf); [by rewrite Hfirst|].
    rewrite (bind_raise _ _ _ _ (update_with_raise _ _ _ _ _ Hf Hsetf)).
    split; split; [by intros (h' & [=])|by intros [? ?]|by intros _ [? ?]|intros _; eauto].
Qed.

(** X6.  When the forward and the backward layer hold the same number k of
    weights, [Bidirectional.set_weights] accepts exactly the lists of
    length 2k; every other list, and so every list of odd length, is
    refused with the inner layer's [ShapeMismatch]. *)
Theorem Bidirectional_set_weights_even (self : Bidirectional.t) (h : heap)
    (f b : Layer.t) (weights : list tensor) (k : nat) :
  Bidirectional.forward_layer self ≠ Bidirectional.backward_layer self →
  h !! Bidirectional.forward_layer self = Some f →
  h !! Bidirectional.backward_layer self = Some b →
  length (Layer.get_weights f) = k →
  length (Layer.get_weights b) = k →
  ((∃ h', Bidirectional.set_weights self weights h = Ok (tt, h'))
   ↔ length weights = (2 * k)%nat)
  ∧ ((∃ msg, Bidirectional.set_weights self weights h = Raise (ShapeMismatch msg))
     ↔ length weights ≠ (2 * k)%nat).
Proof.
  intros Hne Hf Hb Hlenf Hlenb.
  destruct (Bidirectional_set_weights_iff self h f b weights Hne Hf Hb)
    as (Hok & Hfail).
  rewrite Hok, Hfail, Hlenf, Hlenb.
  pose proof (Nat.div_mod_eq (length weights) 2) as Hdiv.
  pose proof (Nat.mod_upper_bound (length weights) 2) as Hmod.
  split; lia.
Qed.

(** Two layers of one weight each take a list of two and refuse a list of
    three. *)
Lemma Bidirectional_set_weights_even_witness :
  (∃ h', Bidirectional.set_weights (Examples.bidirectional (PyStr "sum") true)
           [Scalar 1; Scalar 2]
           (<[2%positive := Examples.holding [Scalar 0] true
                              (Examples.recurrent "backward_lstm_1" 3 true)]>
              Examples.pair_store)
         = Ok (tt, h'))
  ∧ (∃ msg, Bidirectional.set_weights (Examples.bidirectional (PyStr "sum") true)
              [Scalar 1; Scalar 2; Scalar 3]
              (<[2%positive := Examples.holding [Scalar 0] true
                                 (Examples.recurrent "backward_lstm_1" 3 true)]>
                 Examples.pair_store)
            = Raise (ShapeMismatch msg)).
Proof.
  split.
  - apply (Bidirectional_set_weights_even
             (Examples.bidirectional (PyStr "sum") true) _
             (Examples.holding [Scalar 0] false
                (Examples.recurrent "forward_lstm_1" 3 true))
             (Examples.holding [Scalar 0] true
                (Examples.recurrent "backward_lstm_1" 3 true))
             [Scalar 1; Scalar 2] 1);
      [discriminate|reflexivity|reflexivity|reflexivity|reflexivity|reflexivity].
  - apply (Bidirectional_set_weights_even
             (Examples.bidirectional (PyStr "sum") true) _
             (Examples.holding [Scalar 0] false
                (Examples.recurrent "forward_lstm_1" 3 true))
             (Examples.holding [Scalar 0] true
                (Examples.recurrent "backward_lstm_1" 3 true))
             [Scalar 1; Scalar 2; Scalar 3] 1);
      [discriminate|reflexivity|reflexivity|reflexivity|reflexivity|discriminate].
Defined.

(** X7.  Writing back what [get_weights] returned: when the two layers
    hold the same number of weights, [set_weights] on the list that
    [get_weights] returns goes through and leaves the store as it was.
    When the forward layer holds more weights than the backward layer, the
    halving cuts the list at the wrong place and the call is refused. *)
Theorem Bidirectional_set_get_weights (self : Bidirectional.t) (h : heap)
    (f b : Layer.t) :
  Bidirectional.forward_layer self ≠ Bidirectional.backward_layer self →
  h !! Bidirectional.forward_layer self = Some f →
  h !! Bidirectional.backward_layer self = Some b →
  ∃ weights,
    Bidirectional.get_weights self h = Ok (weights, h)
    ∧ (length (Layer.get_weights f) = length (Layer.get_weights b) →
       Bidirectional.set_weights self weights h = Ok (tt, h))
    ∧ ((length (Layer.get_weights b) < length (Layer.get_weights f))%nat →
       ∃ msg, Bidirectional.set_weights self weights h
              = Raise (ShapeMismatch msg)).
Proof.
  intros Hne Hf Hb. exists (Layer.get_weights f ++ Layer.get_weights b).
  split; [|split].
  - unfold Bidirectional.get_weights.
    rewrite (bind_ok _ _ _ _ _ (deref_ok _ _ _ Hf)).
    by rewrite (bind_ok _ _ _ _ _ (deref_ok _ _ _ Hb)).
  - intros Hlen. unfold Bidirectional.set_weights.
    assert (length (Layer.get_weights f ++ Layer.get_weights b) / 2
            = length (Layer.get_weights f))%nat as ->.
    { rewrite length_app, <- Hlen.
      replace (length (Layer.get_weights f) + length (Layer.get_weights f))%nat
        with (length (Layer.get_weights f) * 2)%nat by lia.
      by apply Nat.div_mul. }
    rewrite take_app_length, drop_app_length.
    rewrite (bind_ok _ _ _ _ _
               (update_with_ok _ _ _ _ _ Hf (Layer_set_weights_own f))).
    rewrite (insert_id _ _ _ Hf).
    rewrite (update_with_ok _ _ _ _ _ Hb (Layer_set_weights_own b)).
    by rewrite (insert_id _ _ _ Hb).
  - intros Hlen.
    apply (Bidirectional_set_weights_iff self h f b _ Hne Hf Hb).
    rewrite length_app. intros [Hhalf _].
    pose proof (Nat.div_mod_eq
      (length (Layer.get_weights f) + length (Layer.get_weights b)) 2) as Hdiv.
    pose proof (Nat.mod_upper_bound
      (length (Layer.get_weights f) + length (Layer.get_weights b)) 2) as Hmod.
    lia.
Qed.

Lemma Bidirectional_set_get_weights_witness :
  ∃ weights,
    Bidirectional.get_weights (Examples.bidirectional (PyStr "sum") true)
      (<[2%positive := Examples.holding [Scalar 7] true
                         (Examples.recurrent "backward_lstm_1" 3 true)]>
         Examples.pair_store)
    = Ok (weights,
          <[2%positive := Examples.holding [Scalar 7] true
                            (Examples.recurrent "backward_lstm_1" 3 true)]>
            Examples.pair_store)
    ∧ (length [Scalar 0] = length [Scalar 7] →
       Bidirectional.set_weights (Examples.bidirectional (PyStr "sum") true)
         weights
         (<[2%positive := Examples.holding [Scalar 7] true
                            (Examples.recurrent "backward_lstm_1" 3 true)]>
            Examples.pair_store)
       = Ok (tt, <[2%positive := Examples.holding [Scalar 7] true
                                   (Examples.recurrent "backward_lstm_1" 3 true)]>
                   Examples.pair_store))
    ∧ ((length [Scalar 7] < length [Scalar 0])%nat →
       ∃ msg, Bidirectional.set_weights (Examples.bidirectional (PyStr "sum") true)
                weights
                (<[2%positive := Examples.holding [Scalar 7] true
                                   (Examples.recurrent "backward_lstm_1" 3 true)]>
                   Examples.pair_store)
              = Raise (ShapeMismatch msg)).
Proof.
  apply (Bidirectional_set_get_weights
           (Examples.bidirectional (PyStr "sum") true) _
           (Examples.holding [Scalar 0] false
              (Examples.recurrent "forward_lstm_1" 3 true))
           (Examples.holding [Scalar 7] true
              (Examples.recurrent "backward_lstm_1" 3 true)));
    [discriminate|reflexivity|reflexivity].
Defined.

(** X8.  The weight list and the weight properties order the tensors
    differently: [get_weights] lists all weights of the forward layer and
    then all of the backward layer, while [trainable_weights] followed by
    [non_trainable_weights] lists the trainable weights of both layers
    first.  The two lists hold the same tensors, and they are the same list
    when the forward layer has no non-trainable weights. *)
Theorem Bidirectional_get_weights_views (self : Bidirectional.t) (h : heap)
    (f b : Layer.t) :
  h !! Bidirectional.forward_layer self = Some f →
  h !! Bidirectional.backward_layer self = Some b →
  ∃ weights trainable non_trainable,
    Bidirectional.get_weights self h = Ok (weights, h)
    ∧ Bidirectional.trainable_weights self h = Ok (trainable, h)
    ∧ Bidirectional.non_trainable_weights self h = Ok (non_trainable, h)
    ∧ weights ≡ₚ trainable ++ non_trainable
    ∧ (Layer.non_trainable_weights f = [] → weights = trainable ++ non_trainable).
Proof.
  intros Hf Hb.
  unfold Bidirectional.get_weights, Bidirectional.trainable_weights,
    Bidirectional.non_trainable_weights.
  rewrite !(bind_ok _ _ _ _ _ (deref_ok _ _ _ Hf)).
  rewrite !(bind_ok _ _ _ _ _ (deref_ok _ _ _ Hb)).
  eexists _, _, _. split_and!; try reflexivity.
  - unfold Layer.get_weights. rewrite <- !(assoc_L (++)).
    f_equiv. rewrite !(assoc_L (++)). f_equiv. apply Permutation_app_comm.
  - intros Hnone. unfold Layer.get_weights. rewrite Hnone.
    by rewrite app_nil_r, <- !(assoc_L (++)).
Qed.

(** In the example store both layers hold trainable weights only, and the
    two orders agree. *)
Lemma Bidirectional_get_weights_views_witness :
  ∃ weights trainable non_trainable,
    Bidirectional.get_weights (Examples.bidirectional (PyStr "sum") true)
      Examples.pair_store = Ok (weights, Examples.pair_store)
    ∧ Bidirectional.trainable_weights (Examples.bidirectional (PyStr "sum") true)
        Examples.pair_store = Ok (trainable, Examples.pair_store)
    ∧ Bidirectional.non_trainable_weights (Examples.bidirectional (PyStr "sum") true)
        Examples.pair_store = Ok (non_trainable, Examples.pair_store)
    ∧ weights ≡ₚ trainable ++ non_trainable
    ∧ (@nil tensor = [] → weights = trainable ++ non_trainable).
Proof.
  apply (Bidirectional_get_weights_views
           (Examples.bidirectional (PyStr "sum") true) Examples.pair_store
           (Examples.holding [Scalar 0] false
              (Examples.recurrent "forward_lstm_1" 3 true))
           (Examples.holding [Scalar 0; Scalar 0] true
              (Examples.recurrent "backward_lstm_1" 3 true)));
    reflexivity.
Defined.

(** ** Masks and outputs of Bidirectional *)

(** X9.  For a wrapper with an allowed merge mode, [call] returns a list
    of two outputs exactly when the merge mode is [None], and
    [compute_mask] returns a list of two masks exactly when the merge mode
    is [None] and the wrapper returns sequences; a wrapper that returns
    only the final step propagates no mask, not even for two outputs. *)
Theorem Bidirectional_compute_mask_call {T} `{Backend T} `{Layer.Call T}
    (self : Bidirectional.t) (h : heap) (f b : Layer.t) (X : T)
    (mask : option T) :
  Bidirectional.merge_mode self
  ∈ [PyStr "sum"; PyStr "mul"; PyStr "ave"; PyStr "concat"; PyNone] →
  h !! Bidirectional.forward_layer self = Some f →
  h !! Bidirectional.backward_layer self = Some b →
  ((∃ ys, Bidirectional.call self X mask h = Ok (OutList ys, h))
   ↔ Bidirectional.merge_mode self = PyNone)
  ∧ (Bidirectional.compute_mask self X mask = MaskList [mask; mask]
     ↔ truthy (Bidirectional.return_sequences self) = true
       ∧ Bidirectional.merge_mode self = PyNone)
  ∧ (truthy (Bidirectional.return_sequences self) = false →
     Bidirectional.compute_mask self X mask = Mask None)
  ∧ (truthy (Bidirectional.return_sequences self) = true →
     Bidirectional.merge_mode self ≠ PyNone →
     Bidirectional.compute_mask self X mask = Mask mask).
Proof.
  intros Hmode Hf Hb.
  unfold Bidirectional.call, Bidirectional.compute_mask.
  rewrite (bind_ok _ _ _ _ _ (deref_ok _ _ _ Hf)).
  rewrite (bind_ok _ _ _ _ _ (deref_ok _ _ _ Hb)).
  set_unfold in Hmode.
  destruct Hmode as [->|[->|[->|[->|[->|[]]]]]];
    destruct (truthy (Bidirectional.return_sequences self)); simpl;
    (split_and!; [split|split|..]);
    try done; try (by intros (ys & [=])); try (by intros [? ?]); eauto.
Qed.

Lemma Bidirectional_compute_mask_call_witness :
  ((∃ ys, Bidirectional.call (Examples.bidirectional PyNone true)
            (Tensor [Tensor [Tensor [Scalar 1]; Tensor [Scalar 2]]]) None
            Examples.pair_store = Ok (OutList ys, Examples.pair_store))
   ↔ PyNone = PyNone)
  ∧ (Bidirectional.compute_mask (Examples.bidirectional PyNone true)
       (Tensor [Tensor [Tensor [Scalar 1]; Tensor [Scalar 2]]]) None
     = MaskList [None; None]
     ↔ true = true ∧ PyNone = PyNone)
  ∧ (true = false →
     Bidirectional.compute_mask (Examples.bidirectional PyNone true)
       (Tensor [Tensor [Tensor [Scalar 1]; Tensor [Scalar 2]]]) None
     = Mask None)
  ∧ (true = true → PyNone ≠ PyNone →
     Bidirectional.compute_mask (Examples.bidirectional PyNone true)
       (Tensor [Tensor [Tensor [Scalar 1]; Tensor [Scalar 2]]]) None
     = Mask None).
Proof.
  apply (Bidirectional_compute_mask_call (Examples.bidirectional PyNone true)
           Examples.pair_store
           (Examples.holding [Scalar 0] false
              (Examples.recurrent "forward_lstm_1" 3 true))
           (Examples.holding [Scalar 0; Scalar 0] true
              (Examples.recurrent "backward_lstm_1" 3 true))).
  - set_solver.
  - reflexivity.
  - reflexivity.
Defined.

(** ** Construction and configuration: what is refused *)

(** X10.  A configuration without the entry 'layer' cannot be read back:
    [from_config] fails with [KeyError] 'layer', for both wrappers and
    whatever else the configuration holds. *)
Theorem from_config_missing_layer (config : gmap string pyval) (h : heap) :
  config !! "layer" = None →
  TimeDistributed.from_config config h = Raise (KeyError "layer")
  ∧ Bidirectional.from_config config h = Raise (KeyError "layer").
Proof.
  intros Hnone.
  unfold TimeDistributed.from_config, Bidirectional.from_config,
    Wrapper.from_config_layer, dict_getitem.
  rewrite Hnone. done.
Qed.

Lemma from_config_missing_layer_witness :
  TimeDistributed.from_config {[ "merge_mode" := PyStr "sum" ]} ∅
  = Raise (KeyError "layer")
  ∧ Bidirectional.from_config {[ "merge_mode" := PyStr "sum" ]} ∅
    = Raise (KeyError "layer").
Proof.
  apply (from_config_missing_layer {[ "merge_mode" := PyStr "sum" ]} ∅).
  reflexivity.
Defined.

(** X11.  A layer whose configuration has no 'go_backwards' entry cannot
    be wrapped: with an allowed merge mode, the constructor fails with
    [KeyError] 'go_backwards', whatever the weights and keyword arguments. *)
Theorem Bidirectional_init_not_recurrent (layer : loc) (merge_mode : pyval)
    (weights : option (list tensor)) (kwargs : gmap string pyval) (h : heap)
    (l : Layer.t) :
  merge_mode ∈ [PyStr "sum"; PyStr "mul"; PyStr "ave"; PyStr "concat"; PyNone] →
  h !! layer = Some l →
  Layer.config l !! "go_backwards" = None →
  Bidirectional.__init__ layer merge_mode weights kwargs h
  = Raise (KeyError "go_backwards").
Proof.
  intros Hmode%merge_mode_allowed_iff Hl Hnone.
  unfold Bidirectional.__init__. rewrite Hmode. cbn [negb].
  rewrite (bind_ok _ _ _ _ _ (deref_ok _ _ _ Hl)).
  unfold dict_getitem, Layer.get_config.
  rewrite lookup_insert_ne by done. rewrite Hnone. done.
Qed.

Lemma Bidirectional_init_not_recurrent_witness :
  Bidirectional.__init__ 1 (PyStr "concat") None ∅
    (Examples.store (Examples.dense "dense_1" 8))
  = Raise (KeyError "go_backwards").
Proof.
  apply (Bidirectional_init_not_recurrent 1 (PyStr "concat") None ∅
           (Examples.store (Examples.dense "dense_1" 8))
           (Examples.dense "dense_1" 8)).
  - set_solver.
  - reflexivity.
  - reflexivity.
Defined.

(** ** Wrapping one layer twice *)

(** X12.  Two wrappers built around the same layer object share it: both
    have the caller's reference as forward layer, each gets a backward
    layer of its own, and the shared object has been renamed twice.  The
    second backward layer is cloned from the renamed object, so its name
    carries both prefixes. *)
Theorem Bidirectional_init_twice (layer : loc) (mode1 mode2 : pyval)
    (kwargs1 kwargs2 : gmap string pyval) (h : heap) (l : Layer.t)
    (go_backwards stateful return_sequences : pyval) :
  mode1 ∈ [PyStr "sum"; PyStr "mul"; PyStr "ave"; PyStr "concat"; PyNone] →
  mode2 ∈ [PyStr "sum"; PyStr "mul"; PyStr "ave"; PyStr "concat"; PyNone] →
  h !! layer = Some l →
  Layer.config l !! "go_backwards" = Some go_backwards →
  Layer.config l !! "stateful" = Some stateful →
  Layer.config l !! "return_sequences" = Some return_sequences →
  ∃ self1 h1 self2 h2 f b1 b2,
    Bidirectional.__init__ layer mode1 None kwargs1 h = Ok (self1, h1)
    ∧ Bidirectional.__init__ layer mode2 None kwargs2 h1 = Ok (self2, h2)
    ∧ Bidirectional.forward_layer self1 = layer
    ∧ Bidirectional.forward_layer self2 = layer
    ∧ Bidirectional.backward_layer self1 ≠ Bidirectional.backward_layer self2
    ∧ h2 !! layer = Some f
    ∧ Layer.name f = "forward_" +:+ "forward_" +:+ Layer.name l
    ∧ h2 !! Bidirectional.backward_layer self1 = Some b1
    ∧ Layer.name b1 = "backward_" +:+ Layer.name l
    ∧ h2 !! Bidirectional.backward_layer self2 = Some b2
    ∧ Layer.name b2 = "backward_" +:+ "forward_" +:+ Layer.name l.
Proof.
  intros Hmode1%merge_mode_allowed_iff Hmode2%merge_mode_allowed_iff
    Hl Hgb Hst Hrs.
  pose proof (Bidirectional_init_ok layer mode1 None kwargs1 h l
                go_backwards stateful return_sequences Hmode1 Hl Hgb Hst Hrs)
    as Hinit1.
  pose proof (fresh_ne h layer l Hl) as Hne1.
  set (r1 := fresh (dom h)) in *.
  cbv iota in Hinit1.
  match type of Hinit1 with _ = Ok (_, ?hh) => set (h1 := hh) in * end.
  assert (h1 !! layer
          = Some (Layer.mk (Layer.class_name l) ("forward_" +:+ Layer.name l)
                    (Layer.config l) (Layer.uses_learning_phase l)
                    (Layer.initial_weights l) (Layer.trainable_weights l)
                    (Layer.non_trainable_weights l) (Layer.updates l)
                    (Layer.losses l) (Layer.constraints l) (Layer.built l)))
    as Hl1.
  { unfold h1. rewrite lookup_insert_ne by done. apply lookup_insert_eq. }
  pose proof (Bidirectional_init_ok layer mode2 None kwargs2 h1 _
                go_backwards stateful return_sequences Hmode2 Hl1 Hgb Hst Hrs)
    as Hinit2.
  pose proof (fresh_ne h1 layer _ Hl1) as Hne2.
  assert (fresh (dom h1) ≠ r1) as Hne12.
  { eapply (fresh_ne h1 r1). unfold h1. apply lookup_insert_eq. }
  cbv iota in Hinit2. cbn [Layer.name Layer.class_name Layer.config] in Hinit2.
  eexists _, _, _, _, _, _, _. split; [exact Hinit1|]. split; [exact Hinit2|].
  cbn [Bidirectional.forward_layer Bidirectional.backward_layer].
  split_and!.
  - reflexivity.
  - reflexivity.
  - done.
  - rewrite lookup_insert_ne by done. apply lookup_insert_eq.
  - reflexivity.
  - rewrite lookup_insert_ne by done. rewrite lookup_insert_ne by done.
    unfold h1. apply lookup_insert_eq.
  - reflexivity.
  - apply lookup_insert_eq.
  - reflexivity.
Qed.

(** Wrapping lstm_1 twice leaves it named forward_forward_lstm_1. *)
Lemma Bidirectional_init_twice_witness :
  ∃ self1 h1 self2 h2 f b1 b2,
    Bidirectional.__init__ 1 (PyStr "sum") None ∅ (Examples.store Examples.lstm)
    = Ok (self1, h1)
    ∧ Bidirectional.__init__ 1 (PyStr "concat") None ∅ h1 = Ok (self2, h2)
    ∧ Bidirectional.forward_layer self1 = 1%positive
    ∧ Bidirectional.forward_layer self2 = 1%positive
    ∧ Bidirectional.backward_layer self1 ≠ Bidirectional.backward_layer self2
    ∧ h2 !! 1%positive = Some f
    ∧ Layer.name f = "forward_" +:+ "forward_" +:+ "lstm_1"
    ∧ h2 !! Bidirectional.backward_layer self1 = Some b1
    ∧ Layer.name b1 = "backward_" +:+ "lstm_1"
    ∧ h2 !! Bidirectional.backward_layer self2 = Some b2
    ∧ Layer.name b2 = "backward_" +:+ "forward_" +:+ "lstm_1".
Proof.
  apply (Bidirectional_init_twice 1 (PyStr "sum") (PyStr "concat") ∅ ∅
           (Examples.store Examples.lstm) Examples.lstm
           (PyBool false) (PyBool false) (PyBool false)).
  - set_solver.
  - set_solver.
  - reflexivity.
  - reflexivity.
  - reflexivity.
  - reflexivity.
Defined.

(** ** Reading configurations back *)

(** X13.  [Bidirectional.from_config] takes the merge mode from the
    configuration: without a 'merge_mode' entry the wrapper is built with
    the default 'concat', and with an entry that is not an allowed merge
    mode the constructor's [ValueError] comes out of [from_config]. *)
Theorem Bidirectional_from_config_merge_mode (l : Layer.t)
    (rest : gmap string pyval) (h : heap)
    (go_backwards stateful return_sequences : pyval) :
  Layer.config l !! "go_backwards" = Some go_backwards →
  Layer.config l !! "stateful" = Some stateful →
  Layer.config l !! "return_sequences" = Some return_sequences →
  rest !! "weights" = None →
  let config : gmap string pyval :=
    <["layer" := PyDict (<["class_name" := PyStr (Layer.class_name l)]>
                           {[ "config" := PyDict (Layer.get_config l) ]})]> rest in
  (rest !! "merge_mode" = None →
   ∃ self' h', Bidirectional.from_config config h = Ok (self', h')
               ∧ Bidirectional.merge_mode self' = PyStr "concat")
  ∧ (∀ merge_mode, rest !! "merge_mode" = Some merge_mode →
       merge_mode ∉ [PyStr "sum"; PyStr "mul"; PyStr "ave"; PyStr "concat"; PyNone] →
       Bidirectional.from_config config h
       = Raise (ValueError Bidirectional.invalid_merge_mode_message)).
Proof.
  intros Hgb Hst Hrs Hweights config. subst config.
  unfold Bidirectional.from_config.
  rewrite (bind_ok _ _ _ _ _ (Wrapper_from_config_layer_ok _ _ _)).
  rewrite (lookup_delete_ne _ "layer" "weights") by done.
  rewrite Hweights. cbn [Bidirectional.bind_weights]. rewrite bind_lift_ok.
  rewrite (lookup_delete_ne _ "layer" "merge_mode") by done.
  destruct (Layer_config_round_trip l) as (_ & _ & Hconfig).
  split.
  - intros ->. cbn [from_option id].
    eexists _, _. split.
    + apply (Bidirectional_init_ok _ (PyStr "concat") None _ _ _
               go_backwards stateful return_sequences eq_refl
               (lookup_insert_eq _ _ _));
        rewrite Hconfig; by rewrite lookup_delete_ne.
    + reflexivity.
  - intros merge_mode -> Hbad. cbn [from_option id].
    rewrite <- merge_mode_allowed_iff in Hbad.
    unfold Bidirectional.__init__.
    destruct (Bidirectional.merge_mode_allowed merge_mode); [done|].
    reflexivity.
Qed.

Lemma Bidirectional_from_config_merge_mode_witness :
  ((∅ : gmap string pyval) !! "merge_mode" = None →
   ∃ self' h',
     Bidirectional.from_config
       (<["layer" := PyDict (<["class_name" := PyStr "LSTM"]>
                               {[ "config" := PyDict (Layer.get_config Examples.lstm) ]})]> ∅)
       ∅ = Ok (self', h')
     ∧ Bidirectional.merge_mode self' = PyStr "concat")
  ∧ (∀ merge_mode, (∅ : gmap string pyval) !! "merge_mode" = Some merge_mode →
       merge_mode ∉ [PyStr "sum"; PyStr "mul"; PyStr "ave"; PyStr "concat"; PyNone] →
       Bidirectional.from_config
         (<["layer" := PyDict (<["class_name" := PyStr "LSTM"]>
                                 {[ "config" := PyDict (Layer.get_config Examples.lstm) ]})]> ∅)
         ∅ = Raise (ValueError Bidirectional.invalid_merge_mode_message)).
Proof.
  apply (Bidirectional_from_config_merge_mode Examples.lstm ∅ ∅
           (PyBool false) (PyBool false) (PyBool false));
    reflexivity.
Defined.

(** ** One mask among absent ones *)

Lemma omap_id_replicate_None {T} (n : nat) :
  omap id (replicate n (@None T)) = [].
Proof. induction n as [|n IH]; [done|]. simpl. exact IH. Qed.

Lemma py_any_replicate_None {T} `{TensorTruth T} (n : nat) :
  py_any (replicate n (@None T)) = Ok false.
Proof. induction n as [|n IH]; [done|]. simpl. exact IH. Qed.

(** [any] over a list with one mask asks that mask, and no other entry,
    for its truth value. *)
Lemma py_any_single {T} `{TensorTruth T} (m : T) (before after : nat) :
  py_any (replicate before None ++ [Some m] ++ replicate after None)
  = truth_value m.
Proof.
  induction before as [|n IH]; simpl; [|exact IH].
  destruct (truth_value m) as [[|]|e]; simpl; [done| |done].
  apply py_any_replicate_None.
Qed.

(** X14.  [TimeDistributed.compute_mask] on a list with a single mask,
    wherever it stands among the absent entries, asks the mask for its
    truth value: the error of a mask that refuses to give one comes out of
    [compute_mask], a mask that is true is returned as it is, and a mask
    that is false gives no mask.  On a list of absent entries only, the
    empty list included, no mask is asked and no mask is returned. *)
Theorem TimeDistributed_compute_mask_single {T} `{Backend T} `{TensorTruth T}
    (self : TimeDistributed.t) (input m : T) (before after : nat) :
  TimeDistributed.compute_mask self input
    (MaskList (replicate before None ++ [Some m] ++ replicate after None))
  = (b ← truth_value m; Ok (if b : bool then Some m else None))
  ∧ TimeDistributed.compute_mask self input (MaskList (replicate before None))
    = Ok None.
Proof.
  unfold TimeDistributed.compute_mask. split.
  - rewrite py_any_single, !omap_app, !omap_id_replicate_None.
    destruct (truth_value m) as [[|]|e]; reflexivity.
  - by rewrite py_any_replicate_None.
Qed.

(** A mask of the reference backend is returned; the same mask under a
    backend whose tensors refuse a truth value makes [compute_mask] raise
    the [TypeError] of that refusal. *)
Remark TimeDistributed_compute_mask_refusing :
  TimeDistributed.compute_mask (Examples.time_distributed []) Examples.mask1
    (MaskList [None; Some Examples.mask1; None])
  = Ok (Some Examples.mask1)
  ∧ @TimeDistributed.compute_mask tensor ZTensor.backend Examples.refusing
      (Examples.time_distributed []) Examples.mask1
      (MaskList [None; Some Examples.mask1; None])
    = Raise (TypeError "a tensor has no truth value").
Proof. split; reflexivity. Qed.

(** ** Round trips through the configuration *)

(** X15.  A [TimeDistributed] wrapper survives [get_config] followed by
    [from_config]: the configuration is produced without touching the
    store, and reading it back allocates one new inner layer, of the same
    class and with the same configuration as the original inner layer,
    under a wrapper with the same keyword arguments; the objects that were
    in the store stay as they were. *)
Theorem TimeDistributed_round_trip (self : TimeDistributed.t) (h : heap)
    (l : Layer.t) :
  h !! TimeDistributed.layer self = Some l →
  Wrapper.kwargs (TimeDistributed.base self) !! "layer" = None →
  ∃ config self' h' l',
    TimeDistributed.get_config self h = Ok (config, h)
    ∧ TimeDistributed.from_config config h = Ok (self', h')
    ∧ h !! TimeDistributed.layer self' = None
    ∧ h' !! TimeDistributed.layer self' = Some l'
    ∧ Layer.class_name l' = Layer.class_name l
    ∧ Layer.get_config l' = Layer.get_config l
    ∧ Wrapper.kwargs (TimeDistributed.base self')
      = Wrapper.kwargs (TimeDistributed.base self)
    ∧ ∀ r, r ≠ TimeDistributed.layer self' → h' !! r = h !! r.
Proof.
  intros Hl Hkw.
  eexists _, _, _, _. split.
  { unfold TimeDistributed.get_config, Wrapper.get_config.
    rewrite (bind_ok _ _ _ _ _ (deref_ok _ _ _ Hl)).
    rewrite <- insert_union_singleton_l. reflexivity. }
  split.
  { unfold TimeDistributed.from_config.
    rewrite (bind_ok _ _ _ _ _ (Wrapper_from_config_layer_ok _ _ _)).
    unfold TimeDistributed.__init__, Wrapper.__init__.
    rewrite (bind_ok _ _ _ _ _
               (bind_ok _ _ _ _ _ (deref_ok _ _ _ (lookup_insert_eq _ _ _)))).
    reflexivity. }
  cbn [TimeDistributed.layer TimeDistributed.base Wrapper.layer Wrapper.kwargs].
  destruct (Layer_config_round_trip l) as (Hcfg & _ & _).
  split_and!.
  - apply fresh_not_in.
  - apply lookup_insert_eq.
  - reflexivity.
  - exact Hcfg.
  - by apply delete_id.
  - intros r Hr. by rewrite lookup_insert_ne.
Qed.

Lemma TimeDistributed_round_trip_witness :
  ∃ config self' h' l',
    TimeDistributed.get_config (Examples.time_distributed [])
      (Examples.store (Examples.dense "dense_1" 8))
    = Ok (config, Examples.store (Examples.dense "dense_1" 8))
    ∧ TimeDistributed.from_config config
        (Examples.store (Examples.dense "dense_1" 8)) = Ok (self', h')
    ∧ Examples.store (Examples.dense "dense_1" 8) !! TimeDistributed.layer self'
      = None
    ∧ h' !! TimeDistributed.layer self' = Some l'
    ∧ Layer.class_name l' = "Dense"
    ∧ Layer.get_config l' = Layer.get_config (Examples.dense "dense_1" 8)
    ∧ Wrapper.kwargs (TimeDistributed.base self') = ∅
    ∧ ∀ r, r ≠ TimeDistributed.layer self' →
           h' !! r = Examples.store (Examples.dense "dense_1" 8) !! r.
Proof.
  apply (TimeDistributed_round_trip (Examples.time_distributed [])
           (Examples.store (Examples.dense "dense_1" 8))
           (Examples.dense "dense_1" 8)); reflexivity.
Defined.

(** X16.  A [Bidirectional] wrapper around a recurrent layer does not come
    back unchanged from [get_config] followed by [from_config]: the merge
    mode and the class of the inner layer come back, but the inner layer's
    configuration comes back with its name behind one more 'forward_', and
    so is never equal to the original's. *)
Theorem Bidirectional_round_trip (self : Bidirectional.t) (h : heap)
    (l : Layer.t) (go_backwards stateful return_sequences : pyval) :
  Bidirectional.merge_mode self
  ∈ [PyStr "sum"; PyStr "mul"; PyStr "ave"; PyStr "concat"; PyNone] →
  h !! Wrapper.layer (Bidirectional.base self) = Some l →
  Layer.config l !! "go_backwards" = Some go_backwards →
  Layer.config l !! "stateful" = Some stateful →
  Layer.config l !! "return_sequences" = Some return_sequences →
  Wrapper.kwargs (Bidirectional.base self) !! "weights" = None →
  ∃ config self' h' l',
    Bidirectional.get_config self h = Ok (config, h)
    ∧ Bidirectional.from_config config h = Ok (self', h')
    ∧ Bidirectional.merge_mode self' = Bidirectional.merge_mode self
    ∧ h' !! Wrapper.layer (Bidirectional.base self') = Some l'
    ∧ Layer.class_name l' = Layer.class_name l
    ∧ Layer.get_config l'
      = <["name" := PyStr ("forward_" +:+ Layer.name l)]> (Layer.get_config l)
    ∧ Layer.get_config l' ≠ Layer.get_config l.
Proof.
  intros Hmode%merge_mode_allowed_iff. by apply Bidirectional_config_round_trip.
Qed.

Lemma Bidirectional_round_trip_witness :
  ∃ config self' h' l',
    Bidirectional.get_config (Examples.bidirectional (PyStr "sum") true)
      Examples.pair_store = Ok (config, Examples.pair_store)
    ∧ Bidirectional.from_config config Examples.pair_store = Ok (self', h')
    ∧ Bidirectional.merge_mode self' = PyStr "sum"
    ∧ h' !! Wrapper.layer (Bidirectional.base self') = Some l'
    ∧ Layer.class_name l' = "LSTM"
    ∧ Layer.get_config l'
      = <["name" := PyStr ("forward_" +:+ "forward_lstm_1")]>
          (Layer.get_config
             (Examples.holding [Scalar 0] false
                (Examples.recurrent "forward_lstm_1" 3 true)))
    ∧ Layer.get_config l'
      ≠ Layer.get_config
          (Examples.holding [Scalar 0] false
             (Examples.recurrent "forward_lstm_1" 3 true)).
Proof.
  apply (Bidirectional_round_trip
           (Examples.bidirectional (PyStr "sum") true) Examples.pair_store
           (Examples.holding [Scalar 0] false
              (Examples.recurrent "forward_lstm_1" 3 true))
           (PyBool false) (PyBool false) (PyBool true));
    [set_solver|reflexivity..].
Defined.
